(** * AddComplianceDialog: the compliance-record submission workflow

    A shallow embedding of the [AddComplianceDialog] component
    (src/pages/Messages.tsx, lines 293-626): its [handleSubmit] handler,
    [createStorageBucket], [fetchStandards], [resetForm], the two close
    controls and the parts of the render function that depend on the
    caller's role.

    JavaScript strings are [string], nullable values are [option],
    arrays are [list].  The handler is asynchronous code with
    [try]/[catch]/[finally]; it is embedded in a small monad that threads
    the component's React state, records every observable interaction
    (remote requests, toasts, console output, callbacks) in order, and
    distinguishes normal from abrupt completion. *)

From Stdlib Require Import String Ascii List Bool Arith NArith ZArith Lia.
From Stdlib Require Import DecimalString.
Import ListNotations.
Local Open Scope list_scope.
Local Open Scope string_scope.

Set Implicit Arguments.

(** ** JavaScript values used by the component *)

Module Js.

(** Truthiness of a string: only the empty string is falsy. *)
Definition truthy (s : string) : bool :=
  match s with
  | EmptyString => false
  | String _ _ => true
  end.

(** Truthiness of a nullable string ([null]/[undefined] are falsy). *)
Definition truthy_opt (o : option string) : bool :=
  match o with
  | Some s => truthy s
  | None => false
  end.

(** [a || b] on nullable strings. *)
Definition or_opt (a b : option string) : option string :=
  if truthy_opt a then a else b.

(** [a || ''] where the right operand is a string. *)
Definition or_str (a : option string) (b : string) : string :=
  match a with
  | Some s => if truthy s then s else b
  | None => b
  end.

(** [s.split(c)] for a one-character separator. *)
Fixpoint split (sep : ascii) (s : string) : list string :=
  match s with
  | EmptyString => [EmptyString]
  | String c rest =>
      if Ascii.eqb c sep then EmptyString :: split sep rest
      else match split sep rest with
           | seg :: segs => String c seg :: segs
           | [] => [String c EmptyString]
           end
  end.

(** [arr.pop()] read as a value: the last element. *)
Definition pop (l : list string) : option string :=
  match rev l with
  | x :: _ => Some x
  | [] => None
  end.

(** [arr.join(sep)]. *)
Fixpoint join (sep : string) (l : list string) : string :=
  match l with
  | [] => ""
  | [x] => x
  | x :: rest => x ++ sep ++ join sep rest
  end.

(** [s.substr(start, len)]. *)
Definition substr (start len : nat) (s : string) : string :=
  substring start len s.

(** [String(n)] for a non-negative integer. *)
Definition of_N (n : N) : string := NilEmpty.string_of_uint (N.to_uint n).
Definition of_nat (n : nat) : string := NilEmpty.string_of_uint (Nat.to_uint n).

(** [s.padStart(w, '0')]. *)
Definition padStart0 (w : nat) (s : string) : string :=
  String.concat "" (repeat "0" (w - String.length s)) ++ s.

(** An error object: whether it is an instance of [Error], and its
    [message]. *)
Record Error := { instanceofError : bool; message : string }.

(** [new Error(msg)]. *)
Definition newError (msg : string) : Error :=
  {| instanceofError := true; message := msg |}.

End Js.

(** ** Data model *)

Module Member.
(** The caller identity supplied by [useAuth()]. *)
Record t := {
  organisation_id : option string;
  full_name : option string;
  email : option string;
  role : option string
}.
End Member.

Module TeamMember.
Record t := {
  id : string;
  full_name : option string;
  email : string;
  role : string
}.
End TeamMember.

Module Standard.
Record t := {
  id : string;
  standard_clause : string;
  standard_description : string
}.
End Standard.

Module File.
(** A browser [File]: the handler reads its [name] and hands the
    object itself to the storage client. *)
Record t := { name : string; content : string }.
End File.

Module Bucket.
Record t := { name : string }.
End Bucket.

Module Date.
(** A JavaScript [Date], seen through the UTC fields that
    [toISOString] prints; [Invalid] is a Date whose time value is NaN. *)
Record fields := {
  year : Z;
  month : N;        (* 1..12 *)
  day : N;          (* 1..31 *)
  hours : N;
  minutes : N;
  seconds : N;
  milliseconds : N
}.

Inductive t :=
| Invalid
| Valid (f : fields).

Definition pad (w : nat) (n : N) : string := Js.padStart0 w (Js.of_N n).

(** Years 0..9999 print as four digits, others as a sign and six. *)
Definition isoYear (y : Z) : string :=
  if ((0 <=? y) && (y <=? 9999))%Z then pad 4 (Z.to_N y)
  else if (y <? 0)%Z then "-" ++ pad 6 (Z.to_N (- y))
       else "+" ++ pad 6 (Z.to_N y).

Definition isoDate (f : fields) : string :=
  isoYear (year f) ++ "-" ++ pad 2 (month f) ++ "-" ++ pad 2 (day f).

Definition isoTime (f : fields) : string :=
  pad 2 (hours f) ++ ":" ++ pad 2 (minutes f) ++ ":" ++ pad 2 (seconds f)
    ++ "." ++ pad 3 (milliseconds f) ++ "Z".

(** [d.toISOString()]: throws a RangeError on an invalid Date. *)
Definition toISOString (d : t) : Js.Error + string :=
  match d with
  | Invalid => inl (Js.newError "Invalid time value")
  | Valid f => inr (isoDate f ++ "T" ++ isoTime f)
  end.
End Date.

(** The row handed to [insert] on [compliance_records]. *)
Module ComplianceRecord.
Record t := {
  compliance_item : string;
  standard_clause : string;
  compliance_status : string;
  responsible_person : string;
  next_review_date : option string;
  notes : option string;
  organisation_id : string;
  file_name : option string;
  file_path : option string
}.
End ComplianceRecord.

(** The component's React state (the [useState] cells). *)
Module Form.
Record t := {
  complianceItem : string;
  standardClause : string;
  complianceStatus : string;
  responsiblePerson : string;
  nextReviewDate : option Date.t;
  notes : string;
  files : list File.t;
  loading : bool;
  standards : list Standard.t;
  standardsLoading : bool
}.

(** The initial values of the [useState] calls (lines 297-306). *)
Definition initial : t :=
  {| complianceItem := ""; standardClause := ""; complianceStatus := "";
     responsiblePerson := ""; nextReviewDate := None; notes := "";
     files := []; loading := false; standards := [];
     standardsLoading := true |}.

Definition setComplianceItem v (s : t) : t :=
  {| complianceItem := v; standardClause := standardClause s;
     complianceStatus := complianceStatus s;
     responsiblePerson := responsiblePerson s;
     nextReviewDate := nextReviewDate s; notes := notes s;
     files := files s; loading := loading s; standards := standards s;
     standardsLoading := standardsLoading s |}.
Definition setStandardClause v (s : t) : t :=
  {| complianceItem := complianceItem s; standardClause := v;
     complianceStatus := complianceStatus s;
     responsiblePerson := responsiblePerson s;
     nextReviewDate := nextReviewDate s; notes := notes s;
     files := files s; loading := loading s; standards := standards s;
     standardsLoading := standardsLoading s |}.
Definition setComplianceStatus v (s : t) : t :=
  {| complianceItem := complianceItem s; standardClause := standardClause s;
     complianceStatus := v;
     responsiblePerson := responsiblePerson s;
     nextReviewDate := nextReviewDate s; notes := notes s;
     files := files s; loading := loading s; standards := standards s;
     standardsLoading := standardsLoading s |}.
Definition setResponsiblePerson v (s : t) : t :=
  {| complianceItem := complianceItem s; standardClause := standardClause s;
     complianceStatus := complianceStatus s;
     responsiblePerson := v;
     nextReviewDate := nextReviewDate s; notes := notes s;
     files := files s; loading := loading s; standards := standards s;
     standardsLoading := standardsLoading s |}.
Definition setNextReviewDate v (s : t) : t :=
  {| complianceItem := complianceItem s; standardClause := standardClause s;
     complianceStatus := complianceStatus s;
     responsiblePerson := responsiblePerson s;
     nextReviewDate := v; notes := notes s;
     files := files s; loading := loading s; standards := standards s;
     standardsLoading := standardsLoading s |}.
Definition setNotes v (s : t) : t :=
  {| complianceItem := complianceItem s; standardClause := standardClause s;
     complianceStatus := complianceStatus s;
     responsiblePerson := responsiblePerson s;
     nextReviewDate := nextReviewDate s; notes := v;
     files := files s; loading := loading s; standards := standards s;
     standardsLoading := standardsLoading s |}.
Definition setFiles v (s : t) : t :=
  {| complianceItem := complianceItem s; standardClause := standardClause s;
     complianceStatus := complianceStatus s;
     responsiblePerson := responsiblePerson s;
     nextReviewDate := nextReviewDate s; notes := notes s;
     files := v; loading := loading s; standards := standards s;
     standardsLoading := standardsLoading s |}.
Definition setLoading v (s : t) : t :=
  {| complianceItem := complianceItem s; standardClause := standardClause s;
     complianceStatus := complianceStatus s;
     responsiblePerson := responsiblePerson s;
     nextReviewDate := nextReviewDate s; notes := notes s;
     files := files s; loading := v; standards := standards s;
     standardsLoading := standardsLoading s |}.
Definition setStandards v (s : t) : t :=
  {| complianceItem := complianceItem s; standardClause := standardClause s;
     complianceStatus := complianceStatus s;
     responsiblePerson := responsiblePerson s;
     nextReviewDate := nextReviewDate s; notes := notes s;
     files := files s; loading := loading s; standards := v;
     standardsLoading := standardsLoading s |}.
Definition setStandardsLoading v (s : t) : t :=
  {| complianceItem := complianceItem s; standardClause := standardClause s;
     complianceStatus := complianceStatus s;
     responsiblePerson := responsiblePerson s;
     nextReviewDate := nextReviewDate s; notes := notes s;
     files := files s; loading := loading s; standards := standards s;
     standardsLoading := v |}.
End Form.

(** ** Observable interactions *)

(** Requests sent to the hosted backend (the Supabase client). *)
Inductive Request :=
| ListBuckets
| CreateBucket (name : string) (public : bool) (allowedMimeTypes : list string)
| Upload (bucket path : string) (file : File.t)
         (cacheControl : string) (upsert : bool)
| Insert (table : string) (row : ComplianceRecord.t)
| SelectAll (table filterColumn filterValue orderColumn : string)
            (ascending : bool).

Inductive Variant := Default | Destructive.

Inductive Event :=
| PreventDefault
| Remote (q : Request)
| Toast (title description : string) (variant : Variant)
| ConsoleLog (label : string)
| ConsoleError (label : string) (err : Js.Error)
| OnSuccess
| OnOpenChange (open : bool).

(** ** The environment

    What the outside world answers during one run of a handler.  A
    promise either resolves with the client's result object or rejects.
    The upload loop is a [for ... of] over [files]; the answers it
    consumes are indexed by the position of the iteration. *)

Inductive Reply (A : Type) :=
| Resolves (a : A)
| Rejects (e : Js.Error).
Arguments Resolves {A} a.
Arguments Rejects {A} e.

Module Env.
Record t := {
  (** [data] of [storage.listBuckets()]; no other field is read. *)
  listBuckets : Reply (option (list Bucket.t));
  (** [error] of [storage.createBucket(..)]. *)
  createBucket : Reply (option Js.Error);
  (** [Date.now()] in iteration [i]. *)
  dateNow : nat -> N;
  (** [Math.random().toString(36)] in iteration [i]. *)
  randomBase36 : nat -> string;
  (** [error] of [storage.from(..).upload(path, file, ..)] in
      iteration [i]. *)
  upload : nat -> string -> File.t -> Reply (option Js.Error);
  (** [error] of [from('compliance_records').insert(row).select()]. *)
  insert : ComplianceRecord.t -> Reply (option Js.Error);
  (** [data] and [error] of the standards query. *)
  selectStandards :
    string -> Reply (option (list Standard.t) * option Js.Error)
}.
End Env.

(** ** The handler monad: React state, trace and abrupt completion *)

Inductive Completion (A : Type) :=
| Normal (a : A)
| Throw (e : Js.Error).
Arguments Normal {A} a.
Arguments Throw {A} e.

Record Run (A : Type) := mkRun {
  outcome : Completion A;
  store : Form.t;
  trace : list Event
}.
Arguments mkRun {A} _ _ _.

Definition M (A : Type) : Type := Form.t -> Run A.

Definition ret {A} (a : A) : M A := fun s => mkRun (Normal a) s [].

Definition bind {A B} (m : M A) (k : A -> M B) : M B :=
  fun s =>
    match m s with
    | mkRun (Normal a) s1 t1 =>
        match k a s1 with
        | mkRun o s2 t2 => mkRun o s2 (t1 ++ t2)
        end
    | mkRun (Throw e) s1 t1 => mkRun (Throw e) s1 t1
    end.

Definition throw {A} (e : Js.Error) : M A := fun s => mkRun (Throw e) s [].

Definition emit (ev : Event) : M unit := fun s => mkRun (Normal tt) s [ev].

Definition setState (f : Form.t -> Form.t) : M unit :=
  fun s => mkRun (Normal tt) (f s) [].

(** [try { m } catch (error) { h error }]. *)
Definition tryCatch {A} (m : M A) (h : Js.Error -> M A) : M A :=
  fun s =>
    match m s with
    | mkRun (Normal a) s1 t1 => mkRun (Normal a) s1 t1
    | mkRun (Throw e) s1 t1 =>
        match h e s1 with
        | mkRun o s2 t2 => mkRun o s2 (t1 ++ t2)
        end
    end.

(** [try { m } finally { f }]: [f] runs on both completions; an abrupt
    completion of [f] replaces that of [m]. *)
Definition tryFinally {A} (m : M A) (f : M unit) : M A :=
  fun s =>
    match m s with
    | mkRun o s1 t1 =>
        match f s1 with
        | mkRun (Normal _) s2 t2 => mkRun o s2 (t1 ++ t2)
        | mkRun (Throw e) s2 t2 => mkRun (Throw e) s2 (t1 ++ t2)
        end
    end.

(** [await p]. *)
Definition await {A} (p : Reply A) : M A :=
  match p with
  | Resolves a => ret a
  | Rejects e => throw e
  end.

(** Issue a request and await its answer. *)
Definition request {A} (q : Request) (p : Reply A) : M A :=
  bind (emit (Remote q)) (fun _ => await p).

Declare Scope handler_scope.
Delimit Scope handler_scope with handler.
Notation "x <- m ;; k" := (bind m (fun x => k))
  (at level 100, m at next level, right associativity) : handler_scope.
Notation "m ;; k" := (bind m (fun _ => k))
  (at level 100, right associativity) : handler_scope.
Local Open Scope handler_scope.

(** ** The component *)

(** The values a render closes over besides the state cells: the [open]
    prop and the results of [useAuth] and [useTeamMembers].  The
    callbacks [onOpenChange] and [onSuccess] belong to the parent; their
    invocations are recorded as events. *)
Record Props := {
  open : bool;
  organisationMember : option Member.t;
  teamMembers : list TeamMember.t
}.

(** [organisationMember?.organisation_id] *)
Definition organisation_id (p : Props) : option string :=
  match organisationMember p with
  | Some m => Member.organisation_id m
  | None => None
  end.

(** Line 308. *)
Definition isAdmin (p : Props) : bool :=
  match organisationMember p with
  | Some m => match Member.role m with
              | Some r => String.eqb r "admin"
              | None => false
              end
  | None => false
  end.

(** Line 309. *)
Definition memberName (p : Props) : string :=
  match organisationMember p with
  | Some m => Js.or_str (Js.or_opt (Member.full_name m) (Member.email m)) ""
  | None => ""
  end.

Definition bucketId : string := "compliance-evidence".

Definition allowedMimeTypes : list string :=
  [ "image/*"; "application/pdf"; "application/msword";
    "application/vnd.openxmlformats-officedocument.wordprocessingml.document" ].

(** Lines 318-341. *)
Definition fetchStandards (env : Env.t) (p : Props) : M unit :=
  match organisation_id p with
  | Some org =>
      if Js.truthy org then
        tryFinally
          (tryCatch
             (setState (Form.setStandardsLoading true) ;;
              r <- request (SelectAll "standards" "organisation_id" org
                                      "standard_clause" true)
                           (Env.selectStandards env org) ;;
              match snd r with
              | Some error => throw error
              | None =>
                  setState (Form.setStandards
                              (match fst r with Some d => d | None => [] end))
              end)
             (fun error =>
                emit (ConsoleError "Error fetching standards:" error) ;;
                emit (Toast "Error" "Failed to fetch standards" Destructive)))
          (setState (Form.setStandardsLoading false))
      else ret tt
  | None => ret tt
  end.

(** The effect of lines 312-316, run when [open] or the organisation
    changes. *)
Definition openEffect (env : Env.t) (p : Props) : M unit :=
  if open p && Js.truthy_opt (organisation_id p)
  then fetchStandards env p
  else ret tt.

(** Line 347: [buckets?.some(bucket => bucket.name === ...)], read as a
    condition ([undefined] is falsy). *)
Definition bucketExists (buckets : option (list Bucket.t)) : bool :=
  match buckets with
  | Some bs =>
      existsb (fun bucket => String.eqb (Bucket.name bucket) bucketId) bs
  | None => false
  end.

(** Lines 343-366. *)
Definition createStorageBucket (env : Env.t) : M unit :=
  tryCatch
    (buckets <- request ListBuckets (Env.listBuckets env) ;;
     if negb (bucketExists buckets) then
       emit (ConsoleLog "Creating compliance-evidence bucket...") ;;
       r <- request (CreateBucket bucketId true allowedMimeTypes)
                    (Env.createBucket env) ;;
       match r with
       | Some error =>
           emit (ConsoleError "Error creating bucket:" error) ;;
           throw error
       | None => emit (ConsoleLog "Bucket created successfully")
       end
     else ret tt)
    (fun error => emit (ConsoleError "Error with storage bucket:" error)).

(** Lines 392-394: the storage key of the file uploaded in iteration [i]. *)
Definition fileExt (file : File.t) : string :=
  match Js.pop (Js.split "." (File.name file)) with
  | Some ext => ext
  | None => "undefined"
  end.

Definition fileName (env : Env.t) (i : nat) (file : File.t) : string :=
  Js.of_N (Env.dateNow env i) ++ "_"
    ++ Js.substr 2 9 (Env.randomBase36 env i) ++ "." ++ fileExt file.

Definition filePath (env : Env.t) (org : string) (i : nat) (file : File.t)
  : string :=
  org ++ "/" ++ fileName env i file.

(** Lines 391-413: the [for ... of] loop from iteration [i] on, with the
    two arrays built so far. *)
Fixpoint uploadFiles (env : Env.t) (org : string) (i : nat)
    (rest : list File.t) (fileNames filePaths : list string)
  : M (list string * list string) :=
  match rest with
  | [] => ret (fileNames, filePaths)
  | file :: rest' =>
      let path := filePath env org i file in
      emit (ConsoleLog "Uploading file to path:") ;;
      uploadError <- request (Upload bucketId path file "3600" false)
                             (Env.upload env i path file) ;;
      match uploadError with
      | Some err =>
          emit (ConsoleError "Upload error:" err) ;;
          throw (Js.newError ("Failed to upload file " ++ File.name file
                                ++ ": " ++ Js.message err))
      | None =>
          emit (ConsoleLog "Upload successful:") ;;
          uploadFiles env org (S i) rest'
                      (fileNames ++ [File.name file])%list
                      (filePaths ++ [path])%list
      end
  end.

(** Line 435. *)
Definition nextReviewDateValue (d : option Date.t)
  : Js.Error + option string :=
  match d with
  | None => inr None
  | Some d =>
      match Date.toISOString d with
      | inl e => inl e
      | inr iso =>
          inr (match Js.split "T" iso with
               | first :: _ => if Js.truthy first then Some first else None
               | [] => None
               end)
      end
  end.

(** Line 436. *)
Definition notesValue (notes : string) : option string :=
  if Js.truthy notes then Some notes else None.

(** Lines 438-439. *)
Definition joinedOrNull (entries : list string) : option string :=
  if (0 <? List.length entries)%nat then Some (Js.join ", " entries) else None.

(** Lines 470-478. *)
Definition resetForm : M unit :=
  setState (Form.setComplianceItem "") ;;
  setState (Form.setStandardClause "") ;;
  setState (Form.setComplianceStatus "") ;;
  setState (Form.setResponsiblePerson "") ;;
  setState (Form.setNextReviewDate None) ;;
  setState (Form.setNotes "") ;;
  setState (Form.setFiles []).

(** Line 452. *)
Definition successDescription (files : list File.t) : string :=
  "Compliance record added successfully"
    ++ (if (0 <? List.length files)%nat
        then " with " ++ Js.of_nat (List.length files) ++ " file(s)"
        else "").

(** Lines 388-414: the guarded loop, starting from two empty arrays.
    [st] holds the values of the state cells in the render whose closure
    is running. *)
Definition uploadStep (env : Env.t) (st : Form.t) (org : string)
  : M (list string * list string) :=
  if (0 <? List.length (Form.files st))%nat then
    emit (ConsoleLog "Uploading files:") ;;
    uploadFiles env org 0 (Form.files st) [] []
  else ret ([], []).

(** Line 417. *)
Definition finalResponsiblePerson (p : Props) (st : Form.t) : string :=
  if isAdmin p then Form.responsiblePerson st else memberName p.

(** Lines 430-440: the object literal passed to [insert]. *)
Definition composeRow (p : Props) (st : Form.t) (org : string)
    (fileNames filePaths : list string) (next_review_date : option string)
  : ComplianceRecord.t :=
  {| ComplianceRecord.compliance_item := Form.complianceItem st;
     ComplianceRecord.standard_clause := Form.standardClause st;
     ComplianceRecord.compliance_status := Form.complianceStatus st;
     ComplianceRecord.responsible_person := finalResponsiblePerson p st;
     ComplianceRecord.next_review_date := next_review_date;
     ComplianceRecord.notes := notesValue (Form.notes st);
     ComplianceRecord.organisation_id := org;
     ComplianceRecord.file_name := joinedOrNull fileNames;
     ComplianceRecord.file_path := joinedOrNull filePaths |}.

(** Lines 416-457: from the resolution of the responsible person to the
    reset of the form. *)
Definition persistStep (env : Env.t) (p : Props) (st : Form.t) (org : string)
    (fileNames filePaths : list string) : M unit :=
  if negb (Js.truthy (finalResponsiblePerson p st)) then
    throw (Js.newError "Responsible person is required")
  else
    emit (ConsoleLog "Inserting compliance record with files:") ;;
    match nextReviewDateValue (Form.nextReviewDate st) with
    | inl rangeError => throw rangeError
    | inr next_review_date =>
        let row := composeRow p st org fileNames filePaths next_review_date in
        error <- request (Insert "compliance_records" row)
                         (Env.insert env row) ;;
        match error with
        | Some err =>
            emit (ConsoleError "Database error:" err) ;;
            throw (Js.newError ("Database error: " ++ Js.message err))
        | None =>
            emit (ConsoleLog "Record inserted successfully:") ;;
            emit (Toast "Success" (successDescription (Form.files st))
                        Default) ;;
            emit OnSuccess ;;
            emit (OnOpenChange false) ;;
            resetForm
        end
    end.

(** Lines 380-457: the body of the [try] block. *)
Definition submitBody (env : Env.t) (p : Props) (st : Form.t) (org : string)
  : M unit :=
  createStorageBucket env ;;
  uploaded <- uploadStep env st org ;;
  persistStep env p st org (fst uploaded) (snd uploaded).

(** Lines 458-464: the [catch] clause. *)
Definition submitCatch (error : Js.Error) : M unit :=
  emit (ConsoleError "Error adding compliance record:" error) ;;
  emit (Toast "Error"
              (if Js.instanceofError error then Js.message error
               else "Failed to add compliance record")
              Destructive).

(** Lines 368-468. *)
Definition handleSubmit (env : Env.t) (p : Props) (st : Form.t) : M unit :=
  emit PreventDefault ;;
  match organisation_id p with
  | Some org =>
      if Js.truthy org then
        setState (Form.setLoading true) ;;
        tryFinally
          (tryCatch (submitBody env p st org) submitCatch)
          (setState (Form.setLoading false))
      else emit (Toast "Error" "Organisation not found" Destructive)
  | None => emit (Toast "Error" "Organisation not found" Destructive)
  end.

(** One submission: the handler of the current render run on the
    current state. *)
Definition submit (env : Env.t) (p : Props) (st : Form.t) : Run unit :=
  handleSubmit env p st st.

(** ** The rendered controls *)

(** Lines 544-565: what is rendered under "Responsible Person". *)
Inductive ResponsibleField :=
| RosterSelect (value : string) (items : list (string * string))
| ReadOnlyInput (value : string).

Definition rosterItem (member : TeamMember.t) : string * string :=
  let shown := Js.or_str (TeamMember.full_name member)
                         (TeamMember.email member) in
  (shown, shown ++ " (" ++ TeamMember.role member ++ ")").

Definition responsibleField (p : Props) (st : Form.t) : ResponsibleField :=
  if isAdmin p
  then RosterSelect (Form.responsiblePerson st)
                    (map rosterItem (teamMembers p))
  else ReadOnlyInput (memberName p).

(** Line 617: the [disabled] attribute of the submit button. *)
Definition submitDisabled (p : Props) (st : Form.t) : bool :=
  Form.loading st
  || negb (Js.truthy (Form.complianceItem st))
  || negb (Js.truthy (Form.standardClause st))
  || negb (Js.truthy (Form.complianceStatus st))
  || (isAdmin p && negb (Js.truthy (Form.responsiblePerson st))).

(** Line 489: the close control in the header. *)
Definition closeClick : M unit := emit (OnOpenChange false).

(** Line 611: the Cancel button. *)
Definition cancelClick : M unit := emit (OnOpenChange false).

(** ** Reading a trace *)

Definition requests (t : list Event) : list Request :=
  flat_map (fun ev => match ev with Remote q => [q] | _ => [] end) t.

Definition uploadsOf (t : list Event) : list (string * File.t) :=
  flat_map (fun ev => match ev with
                      | Remote (Upload _ path file _ _) => [(path, file)]
                      | _ => []
                      end) t.

Definition insertsOf (t : list Event) : list ComplianceRecord.t :=
  flat_map (fun ev => match ev with
                      | Remote (Insert _ row) => [row]
                      | _ => []
                      end) t.

Definition toastsOf (t : list Event) : list (string * string * Variant) :=
  flat_map (fun ev => match ev with
                      | Toast title d v => [(title, d, v)]
                      | _ => []
                      end) t.

Definition successCalls (t : list Event) : nat :=
  List.length (flat_map (fun ev => match ev with
                                   | OnSuccess => [tt]
                                   | _ => []
                                   end) t).

Definition openChanges (t : list Event) : list bool :=
  flat_map (fun ev => match ev with
                      | OnOpenChange b => [b]
                      | _ => []
                      end) t.

Definition errorsLogged (t : list Event) : list (string * Js.Error) :=
  flat_map (fun ev => match ev with
                      | ConsoleError label e => [(label, e)]
                      | _ => []
                      end) t.

(** A submission succeeded when the parent's [onSuccess] was called. *)
Definition succeeded (r : Run unit) : bool :=
  (0 <? successCalls (trace r))%nat.

(** The events of bucket provisioning; they do not depend on the state. *)
Definition provisioning (env : Env.t) : list Event :=
  trace (createStorageBucket env Form.initial).

(** The events of the iterations that upload [rest] without error,
    starting at iteration [i]. *)
Fixpoint uploadedTrace (env : Env.t) (org : string) (i : nat)
    (rest : list File.t) : list Event :=
  match rest with
  | [] => []
  | file :: rest' =>
      ConsoleLog "Uploading file to path:"
        :: Remote (Upload bucketId (filePath env org i file) file "3600" false)
        :: ConsoleLog "Upload successful:"
        :: uploadedTrace env org (S i) rest'
  end.

(** The storage paths assigned to [rest] from iteration [i] on. *)
Fixpoint pathsFrom (env : Env.t) (org : string) (i : nat)
    (rest : list File.t) : list string :=
  match rest with
  | [] => []
  | file :: rest' => filePath env org i file :: pathsFrom env org (S i) rest'
  end.

(** Every upload of [rest], starting at iteration [i], resolves without
    an error. *)
Fixpoint uploadsSucceed (env : Env.t) (org : string) (i : nat)
    (rest : list File.t) : Prop :=
  match rest with
  | [] => True
  | file :: rest' =>
      Env.upload env i (filePath env org i file) file = Resolves None
      /\ uploadsSucceed env org (S i) rest'
  end.

(** Two states hold the same entries: the seven cells that the user
    fills in agree. *)
Definition sameEntries (a b : Form.t) : Prop :=
  Form.complianceItem a = Form.complianceItem b
  /\ Form.standardClause a = Form.standardClause b
  /\ Form.complianceStatus a = Form.complianceStatus b
  /\ Form.responsiblePerson a = Form.responsiblePerson b
  /\ Form.nextReviewDate a = Form.nextReviewDate b
  /\ Form.notes a = Form.notes b
  /\ Form.files a = Form.files b.

(** ** Describing printed dates *)

Definition isDigit (c : ascii) : bool :=
  (48 <=? nat_of_ascii c)%nat && (nat_of_ascii c <=? 57)%nat.

(** The characters of a printed calendar date: digits, the hyphen, and
    the sign of an expanded year. *)
Definition isDateChar (c : ascii) : bool :=
  isDigit c || Ascii.eqb c "-" || Ascii.eqb c "+".

Fixpoint allChars (P : ascii -> bool) (s : string) : bool :=
  match s with
  | EmptyString => true
  | String c rest => P c && allChars P rest
  end.

Definition twoDigits (s : string) : bool :=
  match s with
  | String a (String b EmptyString) => isDigit a && isDigit b
  | _ => false
  end.

Definition fourDigits (s : string) : bool :=
  match s with
  | String a (String b (String c (String d EmptyString))) =>
      isDigit a && isDigit b && isDigit c && isDigit d
  | _ => false
  end.

(** The shape YYYY-MM-DD. *)
Definition isCalendarDate (s : string) : bool :=
  match s with
  | String y1 (String y2 (String y3 (String y4 (String h1
      (String m1 (String m2 (String h2 (String d1 (String d2
         EmptyString))))))))) =>
      isDigit y1 && isDigit y2 && isDigit y3 && isDigit y4
      && Ascii.eqb h1 "-" && isDigit m1 && isDigit m2
      && Ascii.eqb h2 "-" && isDigit d1 && isDigit d2
  | _ => false
  end.

(** The numbers below [k]. *)
Definition belowN (k : N) : list N := map N.of_nat (seq 0 (N.to_nat k)).

(** The events of an upload step in which every upload succeeds. *)
Definition uploadStepTrace (env : Env.t) (org : string) (st : Form.t)
  : list Event :=
  if (0 <? List.length (Form.files st))%nat
  then ConsoleLog "Uploading files:"
         :: uploadedTrace env org 0 (Form.files st)
  else [].

(** What the [catch] clause of [handleSubmit] adds to the trace. *)
Definition catchTrace (error : Js.Error) : list Event :=
  [ ConsoleError "Error adding compliance record:" error;
    Toast "Error"
          (if Js.instanceofError error then Js.message error
           else "Failed to add compliance record")
          Destructive ].

(** The state cells after the seven assignments of [resetForm]. *)
Definition resetCells (s : Form.t) : Form.t :=
  Form.setFiles []
    (Form.setNotes ""
       (Form.setNextReviewDate None
          (Form.setResponsiblePerson ""
             (Form.setComplianceStatus ""
                (Form.setStandardClause ""
                   (Form.setComplianceItem "" s)))))).

(** The state cells after [resetForm] and the [finally] clause. *)
Definition clearedForm (st : Form.t) : Form.t :=
  {| Form.complianceItem := ""; Form.standardClause := "";
     Form.complianceStatus := ""; Form.responsiblePerson := "";
     Form.nextReviewDate := None; Form.notes := ""; Form.files := [];
     Form.loading := false; Form.standards := Form.standards st;
     Form.standardsLoading := Form.standardsLoading st |}.

(** The events of a submission that reaches the end of the [try] block. *)
Definition successTrace (env : Env.t) (p : Props) (st : Form.t)
    (org : string) (next_review_date : option string) : list Event :=
  (PreventDefault :: provisioning env ++ uploadStepTrace env org st
     ++ [ ConsoleLog "Inserting compliance record with files:";
          Remote (Insert "compliance_records"
                    (composeRow p st org
                       (map File.name (Form.files st))
                       (pathsFrom env org 0 (Form.files st))
                       next_review_date));
          ConsoleLog "Record inserted successfully:";
          Toast "Success" (successDescription (Form.files st)) Default;
          OnSuccess;
          OnOpenChange false ])%list.

(** The row of the successful path. *)
Definition insertedRow (env : Env.t) (p : Props) (st : Form.t)
    (org : string) (d : option string) : ComplianceRecord.t :=
  composeRow p st org (map File.name (Form.files st))
             (pathsFrom env org 0 (Form.files st)) d.

(** ** Example data *)

Module Example.

Definition evidenceBucket : Bucket.t :=
  {| Bucket.name := "compliance-evidence" |}.

(** A backend in which the bucket exists and every request succeeds. *)
Definition backend : Env.t :=
  {| Env.listBuckets := Resolves (Some [evidenceBucket]);
     Env.createBucket := Resolves None;
     Env.dateNow := fun i => (1700000000000 + N.of_nat i)%N;
     Env.randomBase36 := fun _ => "0.4fzyo82mvyr";
     Env.upload := fun _ _ _ => Resolves None;
     Env.insert := fun _ => Resolves None;
     Env.selectStandards := fun _ => Resolves (Some [], None) |}.

Definition quotaExceeded : Js.Error :=
  {| Js.instanceofError := true; Js.message := "quota exceeded" |}.

(** The same backend, except that the second upload reports an error. *)
Definition secondUploadFails : Env.t :=
  {| Env.listBuckets := Env.listBuckets backend;
     Env.createBucket := Env.createBucket backend;
     Env.dateNow := Env.dateNow backend;
     Env.randomBase36 := Env.randomBase36 backend;
     Env.upload := fun i _ _ =>
                     if Nat.eqb i 1 then Resolves (Some quotaExceeded)
                     else Resolves None;
     Env.insert := Env.insert backend;
     Env.selectStandards := Env.selectStandards backend |}.

Definition unreachable : Js.Error :=
  {| Js.instanceofError := true; Js.message := "Failed to fetch" |}.

(** A backend whose bucket listing rejects and whose bucket creation
    reports an error. *)
Definition storageDown : Env.t :=
  {| Env.listBuckets := Rejects unreachable;
     Env.createBucket := Resolves (Some unreachable);
     Env.dateNow := Env.dateNow backend;
     Env.randomBase36 := Env.randomBase36 backend;
     Env.upload := Env.upload backend;
     Env.insert := Env.insert backend;
     Env.selectStandards := Env.selectStandards backend |}.

Definition caller (org : option string) (role : string) : Props :=
  {| open := true;
     organisationMember :=
       Some {| Member.organisation_id := org;
               Member.full_name := Some "Ann Lee";
               Member.email := Some "ann@example.org";
               Member.role := Some role |};
     teamMembers :=
       [ {| TeamMember.id := "u2"; TeamMember.full_name := Some "Bob Ray";
            TeamMember.email := "bob@example.org";
            TeamMember.role := "member" |} ] |}.

Definition admin : Props := caller (Some "org1") "admin".
Definition member : Props := caller (Some "org1") "member".
Definition stranger : Props := caller None "member".

Definition report : File.t :=
  {| File.name := "report.final.pdf"; File.content := "%PDF" |}.
Definition readme : File.t :=
  {| File.name := "README"; File.content := "text" |}.
Definition photo : File.t :=
  {| File.name := "site.jpg"; File.content := "JFIF" |}.

Definition reviewDay : Date.t :=
  Date.Valid {| Date.year := 2024; Date.month := 3; Date.day := 9;
                Date.hours := 23; Date.minutes := 0; Date.seconds := 0;
                Date.milliseconds := 0 |}.

(** A filled-in form with [fs] attached. *)
Definition filled (person : string) (fs : list File.t) : Form.t :=
  {| Form.complianceItem := "Fire drill"; Form.standardClause := "4.2";
     Form.complianceStatus := "Compliant";
     Form.responsiblePerson := person;
     Form.nextReviewDate := Some reviewDay; Form.notes := "";
     Form.files := fs; Form.loading := false; Form.standards := [];
     Form.standardsLoading := false |}.

End Example.

(** ** Further rendered controls of the dialog *)

(** A [SelectItem]: its value, its text and its [disabled] attribute. *)
Inductive SelectItem := Item (value label : string) (disabled : bool).

(** Lines 516-523: the items of the "Standard Clause" selector. *)
Definition standardItems (st : Form.t) : list SelectItem :=
  (map (fun standard =>
          Item (Standard.standard_clause standard)
               (Standard.standard_clause standard ++ " - "
                  ++ Standard.standard_description standard)
               false)
       (Form.standards st)
     ++ (if (List.length (Form.standards st) =? 0)%nat
            && negb (Form.standardsLoading st)
         then [Item "" "No standards available" true]
         else []))%list.

(** Line 513: the placeholder of the selector. *)
Definition standardPlaceholder (st : Form.t) : string :=
  if Form.standardsLoading st then "Loading standards..."
  else "Select standard clause".

(** The request that [fetchStandards] sends for an organisation. *)
Definition standardsQuery (org : string) : Request :=
  SelectAll "standards" "organisation_id" org "standard_clause" true.

(** A string that does not contain the separator [sep]. *)
Definition sepFree (sep : ascii) (s : string) : bool :=
  allChars (fun c => negb (Ascii.eqb c sep)) s.




(** ** ProfileSettings (lines 29-261 of the same file) *)

Module Text.

(** [c.toUpperCase()] on an ASCII character. *)
Definition upper (c : ascii) : ascii :=
  let n := nat_of_ascii c in
  if (97 <=? n)%nat && (n <=? 122)%nat then ascii_of_nat (n - 32) else c.

(** [s.toUpperCase()] on ASCII text. *)
Fixpoint toUpperCase (s : string) : string :=
  match s with
  | EmptyString => EmptyString
  | String c rest => String (upper c) (toUpperCase rest)
  end.

(** [s[0]]: [undefined] on the empty string. *)
Definition first (s : string) : option string :=
  match s with
  | EmptyString => None
  | String c _ => Some (String c EmptyString)
  end.

(** How [join] prints an element: [undefined] as the empty string. *)
Definition printed (o : option string) : string :=
  match o with
  | Some s => s
  | None => ""
  end.

(** [s.slice(start, stop)] for indices within [0, stop]. *)
Definition slice (start stop : nat) (s : string) : string :=
  substring start (stop - start) s.

End Text.

(** Lines 116-123, on ASCII names. *)
Definition getInitials (name : string) : string :=
  Text.slice 0 2
    (Text.toUpperCase
       (Js.join "" (map (fun n => Text.printed (Text.first n))
                        (Js.split " " name)))).

Definition baseClasses : string :=
  "px-3 py-1 rounded-full text-sm font-medium inline-flex items-center".

(** Lines 104-114. *)
Definition getRoleBadge (role : string) : string :=
  if String.eqb role "admin"
  then baseClasses ++ " bg-purple-100 text-purple-800"
  else if String.eqb role "member"
       then baseClasses ++ " bg-blue-100 text-blue-800"
       else baseClasses ++ " bg-gray-100 text-gray-800".

Module User.
(** The authenticated user of [useAuth()]: [id], [email] and
    [user_metadata.avatar_url]. *)
Record t := {
  id : string;
  email : option string;
  avatar_url : option string
}.
End User.

(** The state cells of [ProfileSettings] (lines 33-35). *)
Module Profile.
Record t := {
  avatarUrl : option string;
  uploading : bool;
  isEditDialogOpen : bool
}.

Definition initial : t :=
  {| avatarUrl := None; uploading := false; isEditDialogOpen := false |}.

Definition setAvatarUrl v (s : t) : t :=
  {| avatarUrl := v; uploading := uploading s;
     isEditDialogOpen := isEditDialogOpen s |}.
Definition setUploading v (s : t) : t :=
  {| avatarUrl := avatarUrl s; uploading := v;
     isEditDialogOpen := isEditDialogOpen s |}.
Definition setIsEditDialogOpen v (s : t) : t :=
  {| avatarUrl := avatarUrl s; uploading := uploading s;
     isEditDialogOpen := v |}.
End Profile.

(** Lines 244-245: the role shown, and the classes of its badge. *)
Definition shownRole (om : option Member.t) : string :=
  Js.or_str (match om with Some m => Member.role m | None => None end)
            "member".

Definition roleBadge (om : option Member.t) : string :=
  getRoleBadge (shownRole om).

(** Lines 168-173: the fallback of the avatar, [None] standing for the
    icon. *)
Definition avatarFallback (om : option Member.t) : option string :=
  match om with
  | Some m =>
      match Member.full_name m with
      | Some n => if Js.truthy n then Some (getInitials n) else None
      | None => None
      end
  | None => None
  end.

(** Line 165: the [src] of the avatar image. *)
Definition avatarSrc (st : Profile.t) (user : option User.t)
  : option string :=
  Js.or_opt (Profile.avatarUrl st)
            (match user with
             | Some u => User.avatar_url u
             | None => None
             end).

(** A value thrown in [handleAvatarUpload].  Its [catch] clause reads
    [error.message] (line 96), which is itself an error when the value
    is [undefined] or [null]; every other value answers the read, with
    [Js.message] empty when it has no such property. *)
Inductive Thrown :=
| Nullish
| Object (e : Js.Error).

(** The TypeError of reading [property] of [undefined] or [null].  The
    wording of its message is the engine's. *)
Definition nullishRead (property : string) : Js.Error :=
  {| Js.instanceofError := true;
     Js.message := "Cannot read properties of undefined (reading '"
                     ++ property ++ "')" |}.

(** What [handleAvatarUpload] does that can be observed: the events of
    the dialog, the update of the user's metadata, and [console.error]
    called with [undefined] or [null]. *)
Inductive ProfileEvent :=
| Shared (ev : Event)
| UpdateUser (avatar_url : string)
| ConsoleErrorNullish (label : string).

(** The handler monad over another state and event type, with thrown
    values that may be [undefined] or [null]. *)
Module Async.

Inductive Completion (A : Type) :=
| Normal (a : A)
| Throw (v : Thrown).
Arguments Normal {A} _.
Arguments Throw {A} _.

(** A settled promise: fulfilled with a value, or rejected with any
    value. *)
Inductive Reply (A : Type) :=
| Resolves (a : A)
| Rejects (v : Thrown).
Arguments Resolves {A} _.
Arguments Rejects {A} _.

Record Run (S E A : Type) := mkRun {
  outcome : Completion A;
  store : S;
  trace : list E
}.
Arguments mkRun {S E A} _ _ _.
Arguments outcome {S E A} _.
Arguments store {S E A} _.
Arguments trace {S E A} _.

Definition M (S E A : Type) : Type := S -> Run S E A.

Definition ret {S E A} (a : A) : M S E A := fun s => mkRun (Normal a) s [].

Definition bind {S E A B} (m : M S E A) (k : A -> M S E B) : M S E B :=
  fun s =>
    match m s with
    | mkRun (Normal a) s1 t1 =>
        match k a s1 with
        | mkRun o s2 t2 => mkRun o s2 (t1 ++ t2)
        end
    | mkRun (Throw e) s1 t1 => mkRun (Throw e) s1 t1
    end.

Definition throw {S E A} (v : Thrown) : M S E A :=
  fun s => mkRun (Throw v) s [].

Definition emit {S E} (ev : E) : M S E unit :=
  fun s => mkRun (Normal tt) s [ev].

Definition setState {S E} (f : S -> S) : M S E unit :=
  fun s => mkRun (Normal tt) (f s) [].

Definition tryCatch {S E A} (m : M S E A) (h : Thrown -> M S E A)
  : M S E A :=
  fun s =>
    match m s with
    | mkRun (Normal a) s1 t1 => mkRun (Normal a) s1 t1
    | mkRun (Throw e) s1 t1 =>
        match h e s1 with
        | mkRun o s2 t2 => mkRun o s2 (t1 ++ t2)
        end
    end.

Definition tryFinally {S E A} (m : M S E A) (f : M S E unit) : M S E A :=
  fun s =>
    match m s with
    | mkRun o s1 t1 =>
        match f s1 with
        | mkRun (Normal _) s2 t2 => mkRun o s2 (t1 ++ t2)
        | mkRun (Throw e) s2 t2 => mkRun (Throw e) s2 (t1 ++ t2)
        end
    end.

Definition await {S E A} (p : Reply A) : M S E A :=
  match p with
  | Resolves a => ret a
  | Rejects v => throw v
  end.

End Async.

Module AvatarEnv.
Record t := {
  (** [Math.random()] as a template literal prints it. *)
  random : string;
  (** [error] of [storage.from('avatars').upload(name, file, ..)]. *)
  upload : string -> File.t -> Async.Reply (option Js.Error);
  (** [data.publicUrl] of [getPublicUrl(name)]. *)
  publicUrl : string -> string;
  (** [error] of [auth.updateUser(..)]. *)
  updateUser : string -> Async.Reply (option Js.Error)
}.
End AvatarEnv.

Declare Scope async_scope.
Delimit Scope async_scope with async.
Notation "x <- m ;; k" := (Async.bind m (fun x => k))
  (at level 100, m at next level, right associativity) : async_scope.
Notation "m ;; k" := (Async.bind m (fun _ => k))
  (at level 100, right associativity) : async_scope.

(** Lines 50-51: the storage key of the avatar. *)
Definition avatarFileName (env : AvatarEnv.t) (user : User.t)
    (file : File.t) : string :=
  User.id user ++ "-" ++ AvatarEnv.random env ++ "." ++ fileExt file.

Definition avatarLog (label : string) : Async.M Profile.t ProfileEvent unit :=
  Async.emit (Shared (ConsoleLog label)).

Definition avatarError (label : string) (e : Js.Error)
  : Async.M Profile.t ProfileEvent unit :=
  Async.emit (Shared (ConsoleError label e)).

(** [console.error(label, error)] on a caught value. *)
Definition avatarCaught (label : string) (error : Thrown)
  : Async.M Profile.t ProfileEvent unit :=
  match error with
  | Object e => avatarError label e
  | Nullish => Async.emit (ConsoleErrorNullish label)
  end.

(** [error.message] on a caught value. *)
Definition messageOf (error : Thrown)
  : Async.M Profile.t ProfileEvent string :=
  match error with
  | Object e => Async.ret (Js.message e)
  | Nullish => Async.throw (Object (nullishRead "message"))
  end.

(** Lines 37-102.  [files] is [event.target.files]. *)
Definition handleAvatarUpload (env : AvatarEnv.t) (user : option User.t)
    (files : option (list File.t)) : Async.M Profile.t ProfileEvent unit :=
  (Async.tryFinally
     (Async.tryCatch
        (Async.setState (Profile.setUploading true) ;;
         match files with
         | None | Some [] =>
             Async.throw
               (Object (Js.newError "You must select an image to upload."))
         | Some (file :: _) =>
             match user with
             | None =>
                 Async.throw (Object (Js.newError "User not authenticated"))
             | Some user =>
                 let fileName := avatarFileName env user file in
                 avatarLog "Uploading file:" ;;
                 Async.emit (Shared (Remote (Upload "avatars" fileName file
                                                   "3600" true))) ;;
                 uploadError <-
                   Async.await (AvatarEnv.upload env fileName file) ;;
                 match uploadError with
                 | Some err =>
                     avatarError "Upload error:" err ;;
                     Async.throw (Object err)
                 | None =>
                     avatarLog "Upload successful:" ;;
                     let publicUrl := AvatarEnv.publicUrl env fileName in
                     avatarLog "Public URL:" ;;
                     Async.setState (Profile.setAvatarUrl (Some publicUrl)) ;;
                     Async.emit (UpdateUser publicUrl) ;;
                     updateError <-
                       Async.await (AvatarEnv.updateUser env publicUrl) ;;
                     match updateError with
                     | Some err =>
                         avatarError "Update user error:" err ;;
                         Async.throw (Object err)
                     | None =>
                         Async.emit
                           (Shared (Toast "Success"
                                          "Avatar updated successfully!"
                                          Default))
                     end
                 end
             end
         end)
        (fun error =>
           avatarCaught "Error uploading avatar:" error ;;
           message <- messageOf error ;;
           Async.emit
             (Shared
                (Toast "Error"
                       (if Js.truthy message then message
                        else "Failed to upload avatar. Please try again.")
                       Destructive))))
     (Async.setState (Profile.setUploading false)))%async.

(** Whether the promise of the upload, or after a successful upload the
    promise of the metadata update, rejects with [undefined] or
    [null]. *)
Definition nullishRejection (env : AvatarEnv.t) (user : option User.t)
    (files : option (list File.t)) : bool :=
  match files, user with
  | Some (file :: _), Some user =>
      let fileName := avatarFileName env user file in
      match AvatarEnv.upload env fileName file with
      | Async.Rejects Nullish => true
      | Async.Resolves None =>
          match AvatarEnv.updateUser env (AvatarEnv.publicUrl env fileName)
          with
          | Async.Rejects Nullish => true
          | _ => false
          end
      | _ => false
      end
  | _, _ => false
  end.

(** One run of the handler on the current state. *)
Definition uploadAvatar (env : AvatarEnv.t) (user : option User.t)
    (files : option (list File.t)) (st : Profile.t)
  : Async.Run Profile.t ProfileEvent unit :=
  handleAvatarUpload env user files st.

(** Reading the trace of [handleAvatarUpload]. *)
Definition avatarUploads (t : list ProfileEvent)
  : list (string * string * File.t * bool) :=
  flat_map (fun ev => match ev with
                      | Shared (Remote (Upload bucket path file _ upsert)) =>
                          [(bucket, path, file, upsert)]
                      | _ => []
                      end) t.

Definition userUpdates (t : list ProfileEvent) : list string :=
  flat_map (fun ev => match ev with
                      | UpdateUser url => [url]
                      | _ => []
                      end) t.

Definition profileToasts (t : list ProfileEvent)
  : list (string * string * Variant) :=
  flat_map (fun ev => match ev with
                      | Shared (Toast title d v) => [(title, d, v)]
                      | _ => []
                      end) t.

(** ** More example data *)

Module Sample.

Definition ann : User.t :=
  {| User.id := "u1"; User.email := Some "ann@example.org";
     User.avatar_url := Some "https://cdn.example.org/old.png" |}.

Definition portrait : File.t :=
  {| File.name := "me.png"; File.content := "PNG" |}.

Definition denied : Js.Error :=
  {| Js.instanceofError := true; Js.message := "row-level security" |}.

(** A backend in which the avatar upload and the update succeed. *)
Definition avatars : AvatarEnv.t :=
  {| AvatarEnv.random := "0.123";
     AvatarEnv.upload := fun _ _ => Async.Resolves None;
     AvatarEnv.publicUrl := fun name => "https://cdn.example.org/" ++ name;
     AvatarEnv.updateUser := fun _ => Async.Resolves None |}.

(** The same backend, except that the metadata update is refused. *)
Definition updateRefused : AvatarEnv.t :=
  {| AvatarEnv.random := AvatarEnv.random avatars;
     AvatarEnv.upload := AvatarEnv.upload avatars;
     AvatarEnv.publicUrl := AvatarEnv.publicUrl avatars;
     AvatarEnv.updateUser := fun _ => Async.Resolves (Some denied) |}.

(** The same backend, except that the upload is refused. *)
Definition uploadRefused : AvatarEnv.t :=
  {| AvatarEnv.random := AvatarEnv.random avatars;
     AvatarEnv.upload := fun _ _ => Async.Resolves (Some denied);
     AvatarEnv.publicUrl := AvatarEnv.publicUrl avatars;
     AvatarEnv.updateUser := AvatarEnv.updateUser avatars |}.

(** A backend whose upload promise rejects with [undefined]. *)
Definition uploadRejectsUndefined : AvatarEnv.t :=
  {| AvatarEnv.random := AvatarEnv.random avatars;
     AvatarEnv.upload := fun _ _ => Async.Rejects Nullish;
     AvatarEnv.publicUrl := AvatarEnv.publicUrl avatars;
     AvatarEnv.updateUser := AvatarEnv.updateUser avatars |}.

(** A backend whose database refuses the insert. *)
Definition insertRefused : Env.t :=
  {| Env.listBuckets := Env.listBuckets Example.backend;
     Env.createBucket := Env.createBucket Example.backend;
     Env.dateNow := Env.dateNow Example.backend;
     Env.randomBase36 := Env.randomBase36 Example.backend;
     Env.upload := Env.upload Example.backend;
     Env.insert := fun _ => Resolves (Some denied);
     Env.selectStandards := fun _ => Resolves (None, Some denied) |}.

Definition timeout : Js.Error :=
  {| Js.instanceofError := false; Js.message := "timeout" |}.

(** A backend whose second upload promise rejects with a value that
    is not an [Error]. *)
Definition secondUploadRejects : Env.t :=
  {| Env.listBuckets := Env.listBuckets Example.backend;
     Env.createBucket := Env.createBucket Example.backend;
     Env.dateNow := Env.dateNow Example.backend;
     Env.randomBase36 := Env.randomBase36 Example.backend;
     Env.upload := fun i _ _ =>
                     if Nat.eqb i 1 then Rejects timeout else Resolves None;
     Env.insert := Env.insert Example.backend;
     Env.selectStandards := Env.selectStandards Example.backend |}.

Definition clause42 : Standard.t :=
  {| Standard.id := "s1"; Standard.standard_clause := "4.2";
     Standard.standard_description := "Context" |}.

(** A backend whose standards query answers one standard. *)
Definition oneStandard : Env.t :=
  {| Env.listBuckets := Env.listBuckets Example.backend;
     Env.createBucket := Env.createBucket Example.backend;
     Env.dateNow := Env.dateNow Example.backend;
     Env.randomBase36 := Env.randomBase36 Example.backend;
     Env.upload := Env.upload Example.backend;
     Env.insert := Env.insert Example.backend;
     Env.selectStandards := fun _ => Resolves (Some [clause42], None) |}.

(** A caller without a name, an e-mail address or the admin role. *)
Definition nameless : Props :=
  {| open := true;
     organisationMember :=
       Some {| Member.organisation_id := Some "org1";
               Member.full_name := None;
               Member.email := None;
               Member.role := Some "member" |};
     teamMembers := [] |}.

Definition bob : TeamMember.t :=
  {| TeamMember.id := "u2"; TeamMember.full_name := Some "Bob Ray";
     TeamMember.email := "bob@example.org";
     TeamMember.role := "member" |}.


(** A caller known by an e-mail address only. *)
Definition emailOnly : Props :=
  {| open := true;
     organisationMember :=
       Some {| Member.organisation_id := Some "org1";
               Member.full_name := None;
               Member.email := Some "cy@example.org";
               Member.role := Some "member" |};
     teamMembers := [] |}.

(** A backend whose bucket listing fails: the client resolves with
    [data] null and keeps the error in the result, which line 346 does
    not read; the creation of the bucket then succeeds. *)
Definition listingFails : Env.t :=
  {| Env.listBuckets := Resolves None;
     Env.createBucket := Resolves None;
     Env.dateNow := Env.dateNow Example.backend;
     Env.randomBase36 := Env.randomBase36 Example.backend;
     Env.upload := Env.upload Example.backend;
     Env.insert := Env.insert Example.backend;
     Env.selectStandards := Env.selectStandards Example.backend |}.

End Sample.

(** ** The JavaScript helpers on concrete values *)

Example split_on_dots :
  Js.split "." "report.final.pdf" = ["report"; "final"; "pdf"].
Proof. reflexivity. Qed.

Example split_trailing_dot : Js.split "." "draft." = ["draft"; ""].
Proof. reflexivity. Qed.

Example split_empty : Js.split "." "" = [""].
Proof. reflexivity. Qed.

Example fileExt_without_dot : fileExt Example.readme = "README".
Proof. reflexivity. Qed.

Example fileExt_last_segment : fileExt Example.report = "pdf".
Proof. reflexivity. Qed.

Example random_suffix : Js.substr 2 9 "0.4fzyo82mvyr" = "4fzyo82mv".
Proof. reflexivity. Qed.

Example join_two : Js.join ", " ["a.pdf"; "b.png"] = "a.pdf, b.png".
Proof. reflexivity. Qed.

Example toISOString_reviewDay :
  Date.toISOString Example.reviewDay = inr "2024-03-09T23:00:00.000Z".
Proof. reflexivity. Qed.

Example isoYear_expanded :
  Date.isoYear (-1) = "-000001" /\ Date.isoYear 12345 = "+012345"
  /\ Date.isoYear 0 = "0000".
Proof. repeat split. Qed.

Example filePath_first :
  filePath Example.backend "org1" 0 Example.report
  = "org1/1700000000000_4fzyo82mv.pdf".
Proof. reflexivity. Qed.

(** ** Lemmas on runs *)

(** Unfolding of the monad operations; every sub-run is bound once, so
    the result stays linear in the size of the handler. *)
Ltac run_monad :=
  cbv [bind tryCatch tryFinally request await emit throw ret setState].

(** Case analysis on the answers that [createStorageBucket] consumes. *)
Ltac provisioning_cases env :=
  unfold createStorageBucket; run_monad;
  destruct (Env.listBuckets env) as [buckets|?];
  [ destruct (bucketExists buckets);
    [ | destruct (Env.createBucket env) as [[?|]|?] ] | ];
  cbv [negb].

Section RunLemmas.

Variable env : Env.t.

Lemma bind_run_normal {A B} (m : M A) (k : A -> M B) s a s1 t1 :
  m s = mkRun (Normal a) s1 t1 ->
  bind m k s
  = mkRun (outcome (k a s1)) (store (k a s1)) (t1 ++ trace (k a s1)).
Proof. intros E. unfold bind. rewrite E. now destruct (k a s1). Qed.

Lemma bind_run_throw {A B} (m : M A) (k : A -> M B) s e s1 t1 :
  m s = mkRun (Throw e) s1 t1 ->
  bind m k s = mkRun (Throw e) s1 t1.
Proof. intros E. unfold bind. rewrite E. reflexivity. Qed.

(** Provisioning completes normally, whatever the storage service
    answers, and leaves the state untouched. *)
Lemma createStorageBucket_run s :
  createStorageBucket env s = mkRun (Normal tt) s (provisioning env).
Proof.
  unfold provisioning. provisioning_cases env; reflexivity.
Qed.

Lemma provisioning_requests :
  requests (provisioning env) = [ListBuckets]
  \/ requests (provisioning env)
     = [ListBuckets; CreateBucket bucketId true allowedMimeTypes].
Proof.
  unfold provisioning. provisioning_cases env; auto.
Qed.

Lemma provisioning_quiet :
  uploadsOf (provisioning env) = []
  /\ insertsOf (provisioning env) = []
  /\ toastsOf (provisioning env) = []
  /\ successCalls (provisioning env) = 0
  /\ openChanges (provisioning env) = [].
Proof.
  unfold provisioning. provisioning_cases env; repeat split.
Qed.

(** *** The upload loop *)

Variable org : string.

(** One iteration of the loop. *)
Lemma uploadFiles_cons file rest i ns ps s :
  uploadFiles env org i (file :: rest) ns ps s
  = let path := filePath env org i file in
    let attempt :=
      [ ConsoleLog "Uploading file to path:";
        Remote (Upload bucketId path file "3600" false) ] in
    match Env.upload env i path file with
    | Resolves None =>
        let r := uploadFiles env org (S i) rest
                             (ns ++ [File.name file])%list
                             (ps ++ [path])%list s in
        mkRun (outcome r) (store r)
              (attempt ++ ConsoleLog "Upload successful:" :: trace r)
    | Resolves (Some err) =>
        mkRun (Throw (Js.newError ("Failed to upload file "
                                     ++ File.name file ++ ": "
                                     ++ Js.message err)))
              s (attempt ++ [ConsoleError "Upload error:" err])
    | Rejects e => mkRun (Throw e) s attempt
    end.
Proof.
  cbn [uploadFiles]. run_monad. cbv zeta.
  destruct (Env.upload env i (filePath env org i file) file) as [[err|]|e];
    [reflexivity | | reflexivity].
  now destruct (uploadFiles env org (S i) rest _ _ s).
Qed.

Lemma uploadFiles_store rest : forall i ns ps s,
  store (uploadFiles env org i rest ns ps s) = s.
Proof.
  induction rest as [|file rest' IH]; intros i ns ps s; [reflexivity|].
  rewrite uploadFiles_cons. cbv zeta.
  destruct (Env.upload env i (filePath env org i file) file)
    as [[err|]|e]; cbn [store]; auto.
Qed.

Lemma uploadFiles_success rest : forall i ns ps s,
  uploadsSucceed env org i rest ->
  uploadFiles env org i rest ns ps s
  = mkRun (Normal ((ns ++ map File.name rest)%list,
                   (ps ++ pathsFrom env org i rest)%list))
          s (uploadedTrace env org i rest).
Proof.
  induction rest as [|file rest' IH]; intros i ns ps s Hok.
  - cbn [uploadFiles map pathsFrom uploadedTrace]. unfold ret.
    now rewrite !app_nil_r.
  - destruct Hok as [Hup Hok]. rewrite uploadFiles_cons. cbv zeta.
    rewrite Hup, (IH (S i) _ _ s Hok).
    cbn [outcome store trace map pathsFrom uploadedTrace app].
    now rewrite <- !app_assoc.
Qed.

Lemma uploadFiles_failure pre file post err : forall i ns ps s,
  uploadsSucceed env org i pre ->
  Env.upload env (i + List.length pre)
             (filePath env org (i + List.length pre) file) file
  = Resolves (Some err) ->
  uploadFiles env org i (pre ++ file :: post) ns ps s
  = mkRun (Throw (Js.newError ("Failed to upload file " ++ File.name file
                                 ++ ": " ++ Js.message err)))
          s
          (uploadedTrace env org i pre
             ++ [ ConsoleLog "Uploading file to path:";
                  Remote (Upload bucketId
                                 (filePath env org (i + List.length pre) file)
                                 file "3600" false);
                  ConsoleError "Upload error:" err ])%list.
Proof.
  induction pre as [|f pre' IH]; intros i ns ps s Hok Hfail.
  - cbn [List.length] in *. rewrite Nat.add_0_r in *.
    cbn [app uploadedTrace]. rewrite uploadFiles_cons. cbv zeta.
    rewrite Hfail. reflexivity.
  - destruct Hok as [Hup Hok]. cbn [app List.length] in *.
    replace (i + S (List.length pre')) with (S i + List.length pre')
      in * by lia.
    rewrite uploadFiles_cons. cbv zeta.
    rewrite Hup, (IH (S i) _ _ s Hok Hfail). reflexivity.
Qed.

(** The loop completes normally only when every upload succeeded. *)
Lemma uploadFiles_normal_inv rest : forall i ns ps s x,
  outcome (uploadFiles env org i rest ns ps s) = Normal x ->
  uploadsSucceed env org i rest.
Proof.
  induction rest as [|file rest' IH]; intros i ns ps s x H; [exact I|].
  rewrite uploadFiles_cons in H. cbv zeta in H. cbn [uploadsSucceed].
  destruct (Env.upload env i (filePath env org i file) file)
    as [[err|]|e]; cbn [outcome] in H; try discriminate.
  split; [reflexivity|]. eapply IH. exact H.
Qed.

(** The loop neither inserts, nor notifies, nor calls the parent. *)
Lemma uploadFiles_quiet rest : forall i ns ps s,
  let t := trace (uploadFiles env org i rest ns ps s) in
  insertsOf t = [] /\ toastsOf t = [] /\ successCalls t = 0
  /\ openChanges t = [].
Proof.
  induction rest as [|file rest' IH]; intros i ns ps s;
    [repeat split|].
  cbv zeta. rewrite uploadFiles_cons. cbv zeta.
  destruct (Env.upload env i (filePath env org i file) file)
    as [[err|]|e]; cbn [trace]; try (repeat split; fail).
  apply (IH (S i)).
Qed.

Lemma uploadedTrace_uploads rest : forall i,
  uploadsOf (uploadedTrace env org i rest)
  = combine (pathsFrom env org i rest) rest.
Proof.
  induction rest as [|file rest' IH]; intros i; [reflexivity|].
  cbn [uploadedTrace pathsFrom combine]. rewrite <- IH. reflexivity.
Qed.

Lemma uploadedTrace_requests rest : forall i,
  requests (uploadedTrace env org i rest)
  = map (fun pf => Upload bucketId (fst pf) (snd pf) "3600" false)
        (combine (pathsFrom env org i rest) rest).
Proof.
  induction rest as [|file rest' IH]; intros i; [reflexivity|].
  cbn [uploadedTrace pathsFrom combine map]. rewrite <- IH. reflexivity.
Qed.

Lemma uploadedTrace_quiet rest : forall i,
  let t := uploadedTrace env org i rest in
  insertsOf t = [] /\ toastsOf t = [] /\ successCalls t = 0
  /\ openChanges t = [] /\ errorsLogged t = [].
Proof.
  induction rest as [|file rest' IH]; intros i; [repeat split|].
  apply (IH (S i)).
Qed.

Lemma pathsFrom_length rest : forall i,
  List.length (pathsFrom env org i rest) = List.length rest.
Proof.
  induction rest as [|file rest' IH]; intros i; cbn; auto.
Qed.


(** *** The guarded loop *)

Lemma uploadStep_nonempty st f fs s :
  Form.files st = f :: fs ->
  uploadStep env st org s
  = let r := uploadFiles env org 0 (f :: fs) [] [] s in
    mkRun (outcome r) (store r) (ConsoleLog "Uploading files:" :: trace r).
Proof.
  intros Hfiles. unfold uploadStep. rewrite Hfiles.
  cbn [List.length Nat.ltb Nat.leb]. run_monad. cbv zeta.
  now destruct (uploadFiles env org 0 (f :: fs) [] [] s).
Qed.

Lemma uploadStep_store st s : store (uploadStep env st org s) = s.
Proof.
  destruct (Form.files st) as [|f fs] eqn:Hfiles.
  - unfold uploadStep. rewrite Hfiles. reflexivity.
  - rewrite (uploadStep_nonempty st s Hfiles). cbn [store].
    apply uploadFiles_store.
Qed.

Lemma uploadStep_success st s :
  uploadsSucceed env org 0 (Form.files st) ->
  uploadStep env st org s
  = mkRun (Normal (map File.name (Form.files st),
                   pathsFrom env org 0 (Form.files st)))
          s (uploadStepTrace env org st).
Proof.
  intros Hok. unfold uploadStepTrace.
  destruct (Form.files st) as [|f fs] eqn:Hfiles.
  - unfold uploadStep. rewrite Hfiles. reflexivity.
  - rewrite (uploadStep_nonempty st s Hfiles). cbv zeta.
    rewrite (uploadFiles_success (f :: fs) 0 [] [] s Hok). reflexivity.
Qed.

Lemma uploadStep_normal_inv st s x :
  outcome (uploadStep env st org s) = Normal x ->
  uploadsSucceed env org 0 (Form.files st).
Proof.
  destruct (Form.files st) as [|f fs] eqn:Hfiles; [intros _; exact I|].
  rewrite (uploadStep_nonempty st s Hfiles). cbn [outcome].
  apply uploadFiles_normal_inv.
Qed.

Lemma uploadStep_quiet st s :
  let t := trace (uploadStep env st org s) in
  insertsOf t = [] /\ toastsOf t = [] /\ successCalls t = 0
  /\ openChanges t = [].
Proof.
  destruct (Form.files st) as [|f fs] eqn:Hfiles.
  - unfold uploadStep. rewrite Hfiles. repeat split.
  - rewrite (uploadStep_nonempty st s Hfiles). cbn [trace].
    apply (uploadFiles_quiet (f :: fs) 0 [] [] s).
Qed.

Lemma uploadStepTrace_quiet st :
  let t := uploadStepTrace env org st in
  insertsOf t = [] /\ toastsOf t = [] /\ successCalls t = 0
  /\ openChanges t = [] /\ errorsLogged t = [].
Proof.
  unfold uploadStepTrace.
  destruct (0 <? List.length (Form.files st))%nat; [|repeat split].
  apply (uploadedTrace_quiet (Form.files st) 0).
Qed.

Lemma uploadStepTrace_uploads st :
  uploadsOf (uploadStepTrace env org st)
  = combine (pathsFrom env org 0 (Form.files st)) (Form.files st).
Proof.
  unfold uploadStepTrace. destruct (Form.files st) as [|f fs]; [reflexivity|].
  cbn [List.length Nat.ltb Nat.leb].
  apply (uploadedTrace_uploads (f :: fs) 0).
Qed.

Lemma uploadStepTrace_requests st :
  requests (uploadStepTrace env org st)
  = map (fun pf => Upload bucketId (fst pf) (snd pf) "3600" false)
        (combine (pathsFrom env org 0 (Form.files st)) (Form.files st)).
Proof.
  unfold uploadStepTrace. destruct (Form.files st) as [|f fs]; [reflexivity|].
  cbn [List.length Nat.ltb Nat.leb].
  apply (uploadedTrace_requests (f :: fs) 0).
Qed.

End RunLemmas.

(** ** The handler as a whole *)

Section HandlerLemmas.

Variables (env : Env.t) (p : Props) (st : Form.t).

Lemma successCalls_app t1 t2 :
  successCalls (t1 ++ t2) = successCalls t1 + successCalls t2.
Proof. unfold successCalls. now rewrite flat_map_app, length_app. Qed.

Lemma successCalls_cons ev t :
  successCalls (ev :: t)
  = (match ev with OnSuccess => 1 | _ => 0 end) + successCalls t.
Proof. destruct ev; reflexivity. Qed.

(** The five ways in which lines 416-457 complete. *)
Lemma persistStep_run org ns ps s :
  persistStep env p st org ns ps s
  = if Js.truthy (finalResponsiblePerson p st) then
      let log := ConsoleLog "Inserting compliance record with files:" in
      match nextReviewDateValue (Form.nextReviewDate st) with
      | inl rangeError => mkRun (Throw rangeError) s [log]
      | inr d =>
          let row := composeRow p st org ns ps d in
          let ask := Remote (Insert "compliance_records" row) in
          match Env.insert env row with
          | Rejects e => mkRun (Throw e) s [log; ask]
          | Resolves (Some err) =>
              mkRun (Throw (Js.newError ("Database error: "
                                           ++ Js.message err)))
                    s [log; ask; ConsoleError "Database error:" err]
          | Resolves None =>
              mkRun (Normal tt) (resetCells s)
                    [ log; ask;
                      ConsoleLog "Record inserted successfully:";
                      Toast "Success" (successDescription (Form.files st))
                            Default;
                      OnSuccess;
                      OnOpenChange false ]
          end
      end
    else mkRun (Throw (Js.newError "Responsible person is required")) s [].
Proof.
  unfold persistStep.
  destruct (Js.truthy (finalResponsiblePerson p st)); cbn [negb];
    [|reflexivity].
  destruct (nextReviewDateValue (Form.nextReviewDate st)) as [e|d];
    [reflexivity|].
  unfold resetForm. run_monad. cbv zeta.
  destruct (Env.insert env _) as [[err|]|e]; reflexivity.
Qed.

Lemma submitBody_run org s :
  submitBody env p st org s
  = let r1 := uploadStep env st org s in
    match outcome r1 with
    | Normal up =>
        let r2 := persistStep env p st org (fst up) (snd up) s in
        mkRun (outcome r2) (store r2)
              (provisioning env ++ trace r1 ++ trace r2)
    | Throw e => mkRun (Throw e) s (provisioning env ++ trace r1)
    end.
Proof.
  unfold submitBody.
  rewrite (bind_run_normal _ _ _ (createStorageBucket_run env s)).
  cbv zeta.
  pose proof (uploadStep_store env org st s) as Hs.
  destruct (uploadStep env st org s) as [[up|e] s1 t1] eqn:E;
    cbn [store] in Hs; subst s1.
  - rewrite (bind_run_normal _ _ _ E). reflexivity.
  - rewrite (bind_run_throw _ _ _ E). reflexivity.
Qed.

Lemma handleSubmit_run org :
  organisation_id p = Some org -> Js.truthy org = true ->
  submit env p st
  = let r := submitBody env p st org (Form.setLoading true st) in
    match outcome r with
    | Normal _ =>
        mkRun (Normal tt) (Form.setLoading false (store r))
              (PreventDefault :: trace r)
    | Throw e =>
        mkRun (Normal tt) (Form.setLoading false (store r))
              (PreventDefault :: trace r ++ catchTrace e)
    end.
Proof.
  intros Horg Htruthy. unfold submit, handleSubmit.
  rewrite Horg, Htruthy. unfold submitCatch. run_monad. cbv zeta.
  destruct (submitBody env p st org (Form.setLoading true st))
    as [[[]|e] s1 t1]; cbn [outcome store trace app catchTrace];
    now rewrite ?app_nil_r.
Qed.

(** A submission without an organisation only shows a toast. *)
Lemma handleSubmit_no_organisation :
  Js.truthy_opt (organisation_id p) = false ->
  submit env p st
  = mkRun (Normal tt) st
          [ PreventDefault;
            Toast "Error" "Organisation not found" Destructive ].
Proof.
  intros H. unfold submit, handleSubmit.
  destruct (organisation_id p) as [org|]; cbn [Js.truthy_opt] in H;
    [rewrite H|]; reflexivity.
Qed.

(** The successful path, from its conditions. *)
Lemma submit_success org d :
  organisation_id p = Some org -> Js.truthy org = true ->
  uploadsSucceed env org 0 (Form.files st) ->
  Js.truthy (finalResponsiblePerson p st) = true ->
  nextReviewDateValue (Form.nextReviewDate st) = inr d ->
  Env.insert env (composeRow p st org (map File.name (Form.files st))
                             (pathsFrom env org 0 (Form.files st)) d)
  = Resolves None ->
  submit env p st
  = mkRun (Normal tt) (clearedForm st) (successTrace env p st org d).
Proof.
  intros Horg Htruthy Hup Hperson Hdate Hins.
  rewrite (handleSubmit_run Horg Htruthy), submitBody_run.
  rewrite (uploadStep_success env org st _ Hup).
  cbv zeta. cbn [outcome store trace fst snd].
  rewrite persistStep_run, Hperson, Hdate. cbv zeta. rewrite Hins.
  reflexivity.
Qed.

(** A submission succeeds only along the successful path. *)
Lemma submit_succeeded_inv :
  succeeded (submit env p st) = true ->
  exists org d,
    organisation_id p = Some org /\ Js.truthy org = true
    /\ uploadsSucceed env org 0 (Form.files st)
    /\ Js.truthy (finalResponsiblePerson p st) = true
    /\ nextReviewDateValue (Form.nextReviewDate st) = inr d
    /\ Env.insert env (composeRow p st org (map File.name (Form.files st))
                                  (pathsFrom env org 0 (Form.files st)) d)
       = Resolves None.
Proof.
  unfold succeeded. intros H.
  destruct (Js.truthy_opt (organisation_id p)) eqn:Horg.
  2:{ rewrite (handleSubmit_no_organisation Horg) in H. discriminate. }
  destruct (organisation_id p) as [org|] eqn:Eorg; [|discriminate].
  cbn [Js.truthy_opt] in Horg. exists org.
  rewrite (handleSubmit_run Eorg Horg), submitBody_run in H.
  cbv zeta in H.
  pose proof (uploadStep_quiet env org st (Form.setLoading true st))
    as (_ & _ & Hq & _).
  pose proof (provisioning_quiet env) as (_ & _ & _ & Hpq & _).
  destruct (outcome (uploadStep env st org (Form.setLoading true st)))
    as [up|e] eqn:Eup.
  2:{ cbn [outcome store trace] in H.
      rewrite successCalls_cons, !successCalls_app, Hpq, Hq in H.
      discriminate. }
  pose proof (uploadStep_normal_inv _ _ _ _ Eup) as Hok.
  rewrite (uploadStep_success env org st _ Hok) in Eup, H, Hq.
  cbn [outcome store trace] in Eup, H, Hq. injection Eup as <-.
  cbn [fst snd] in H. rewrite persistStep_run in H.
  destruct (Js.truthy (finalResponsiblePerson p st)) eqn:Hperson.
  2:{ cbn [outcome store trace] in H.
      rewrite successCalls_cons, !successCalls_app, Hpq, Hq in H.
      discriminate. }
  destruct (nextReviewDateValue (Form.nextReviewDate st)) as [e|d] eqn:Hd.
  { cbv zeta in H. cbn [outcome store trace] in H.
    rewrite successCalls_cons, !successCalls_app, Hpq, Hq in H.
    discriminate. }
  exists d. repeat (split; [auto; fail|]).
  cbv zeta in H.
  destruct (Env.insert env _) as [[err|]|e]; [| reflexivity |];
    cbn [outcome store trace] in H;
    rewrite successCalls_cons, !successCalls_app, Hpq, Hq in H;
    discriminate.
Qed.

End HandlerLemmas.

(** ** Reading the trace of a whole submission *)

Lemma requests_app t1 t2 :
  requests (t1 ++ t2) = (requests t1 ++ requests t2)%list.
Proof. apply flat_map_app. Qed.

Lemma uploadsOf_app t1 t2 :
  uploadsOf (t1 ++ t2) = (uploadsOf t1 ++ uploadsOf t2)%list.
Proof. apply flat_map_app. Qed.

Lemma insertsOf_app t1 t2 :
  insertsOf (t1 ++ t2) = (insertsOf t1 ++ insertsOf t2)%list.
Proof. apply flat_map_app. Qed.

Lemma toastsOf_app t1 t2 :
  toastsOf (t1 ++ t2) = (toastsOf t1 ++ toastsOf t2)%list.
Proof. apply flat_map_app. Qed.

Lemma openChanges_app t1 t2 :
  openChanges (t1 ++ t2) = (openChanges t1 ++ openChanges t2)%list.
Proof. apply flat_map_app. Qed.

Lemma errorsLogged_app t1 t2 :
  errorsLogged (t1 ++ t2) = (errorsLogged t1 ++ errorsLogged t2)%list.
Proof. apply flat_map_app. Qed.

Ltac read_trace :=
  rewrite ?requests_app, ?uploadsOf_app, ?insertsOf_app, ?toastsOf_app,
    ?successCalls_app, ?openChanges_app, ?errorsLogged_app.

Section SuccessfulSubmission.

Variables (env : Env.t) (p : Props) (st : Form.t).

(** A submission that succeeded ran the successful path. *)
Lemma submit_succeeded_run :
  succeeded (submit env p st) = true ->
  exists org d,
    organisation_id p = Some org /\ Js.truthy org = true
    /\ Js.truthy (finalResponsiblePerson p st) = true
    /\ nextReviewDateValue (Form.nextReviewDate st) = inr d
    /\ submit env p st
       = mkRun (Normal tt) (clearedForm st) (successTrace env p st org d).
Proof.
  intros H.
  destruct (submit_succeeded_inv env p st H)
    as (org & d & Horg & Ht & Hup & Hperson & Hd & Hins).
  exists org, d. repeat (split; [assumption|]).
  now apply submit_success.
Qed.

Lemma successTrace_inserts org d :
  insertsOf (successTrace env p st org d) = [insertedRow env p st org d].
Proof.
  unfold successTrace.
  change (PreventDefault :: ?t) with ([PreventDefault] ++ t)%list.
  read_trace.
  destruct (provisioning_quiet env) as (_ & -> & _).
  destruct (uploadStepTrace_quiet env org st) as (-> & _).
  reflexivity.
Qed.

Lemma successTrace_toasts org d :
  toastsOf (successTrace env p st org d)
  = [("Success", successDescription (Form.files st), Default)].
Proof.
  unfold successTrace.
  change (PreventDefault :: ?t) with ([PreventDefault] ++ t)%list.
  read_trace.
  destruct (provisioning_quiet env) as (_ & _ & -> & _).
  destruct (uploadStepTrace_quiet env org st) as (_ & -> & _).
  reflexivity.
Qed.

Lemma successTrace_calls org d :
  successCalls (successTrace env p st org d) = 1
  /\ openChanges (successTrace env p st org d) = [false].
Proof.
  unfold successTrace.
  change (PreventDefault :: ?t) with ([PreventDefault] ++ t)%list.
  read_trace.
  destruct (provisioning_quiet env) as (_ & _ & _ & -> & ->).
  destruct (uploadStepTrace_quiet env org st) as (_ & _ & -> & -> & _).
  split; reflexivity.
Qed.


End SuccessfulSubmission.

(** ** Further lemmas on submissions *)

Lemma uploads_nth env org rest : forall i k,
  nth_error (combine (pathsFrom env org i rest) rest) k
  = option_map (fun file => (filePath env org (i + k) file, file))
               (nth_error rest k).
Proof.
  induction rest as [|file rest' IH]; intros i [|k]; cbn; auto.
  - now rewrite Nat.add_0_r.
  - rewrite IH. now replace (S i + k) with (i + S k) by lia.
Qed.

Lemma uploads_snoc env org pre file : forall i,
  combine (pathsFrom env org i (pre ++ [file])) (pre ++ [file])
  = (combine (pathsFrom env org i pre) pre
       ++ [(filePath env org (i + List.length pre) file, file)])%list.
Proof.
  induction pre as [|f pre' IH]; intros i; cbn.
  - now rewrite Nat.add_0_r.
  - rewrite IH. now replace (S i + List.length pre')
      with (i + S (List.length pre')) by lia.
Qed.

Lemma uploadStep_failure env st org pre file post err s :
  Form.files st = (pre ++ file :: post)%list ->
  uploadsSucceed env org 0 pre ->
  Env.upload env (List.length pre)
             (filePath env org (List.length pre) file) file
  = Resolves (Some err) ->
  uploadStep env st org s
  = mkRun (Throw (Js.newError ("Failed to upload file " ++ File.name file
                                 ++ ": " ++ Js.message err)))
          s
          ([ConsoleLog "Uploading files:"]
             ++ uploadedTrace env org 0 pre
             ++ [ ConsoleLog "Uploading file to path:";
                  Remote (Upload bucketId
                                 (filePath env org (List.length pre) file)
                                 file "3600" false);
                  ConsoleError "Upload error:" err ])%list.
Proof.
  intros Hfiles Hok Hfail. unfold uploadStep. rewrite Hfiles.
  assert (Hlen : (0 <? List.length (pre ++ file :: post))%nat = true).
  { apply Nat.ltb_lt. rewrite length_app. cbn. lia. }
  rewrite Hlen. unfold bind, emit. cbv zeta. cbn [outcome store trace].
  rewrite (@uploadFiles_failure env org pre file post err 0 [] [] s
             Hok Hfail).
  reflexivity.
Qed.

(** The whole run of a submission in which the uploads of [pre] succeed
    and the upload of the next file reports [err]. *)
Lemma submit_upload_failure env p st org pre file post err :
  organisation_id p = Some org -> Js.truthy org = true ->
  Form.files st = (pre ++ file :: post)%list ->
  uploadsSucceed env org 0 pre ->
  Env.upload env (List.length pre)
             (filePath env org (List.length pre) file) file
  = Resolves (Some err) ->
  submit env p st
  = mkRun (Normal tt) (Form.setLoading false (Form.setLoading true st))
      ([PreventDefault] ++ provisioning env
         ++ [ConsoleLog "Uploading files:"]
         ++ uploadedTrace env org 0 pre
         ++ [ ConsoleLog "Uploading file to path:";
              Remote (Upload bucketId
                             (filePath env org (List.length pre) file)
                             file "3600" false);
              ConsoleError "Upload error:" err ]
         ++ catchTrace (Js.newError ("Failed to upload file "
                                       ++ File.name file ++ ": "
                                       ++ Js.message err)))%list.
Proof.
  intros Horg Htruthy Hfiles Hok Hfail.
  rewrite (handleSubmit_run env p st Horg Htruthy), submitBody_run.
  rewrite (@uploadStep_failure env st org pre file post err _
             Hfiles Hok Hfail).
  cbv zeta. cbn [outcome store trace].
  rewrite <- !app_assoc. reflexivity.
Qed.

(** Whatever provisioning did, the trace of a submission continues with
    the upload step. *)
Lemma submit_reaches_upload env p st org :
  organisation_id p = Some org -> Js.truthy org = true ->
  exists rest,
    trace (submit env p st)
    = ([PreventDefault] ++ provisioning env
         ++ trace (uploadStep env st org (Form.setLoading true st))
         ++ rest)%list.
Proof.
  intros Horg Htruthy.
  rewrite (handleSubmit_run env p st Horg Htruthy), submitBody_run.
  cbv zeta.
  destruct (outcome (uploadStep env st org (Form.setLoading true st)))
    as [up|e]; cbn [outcome store trace].
  - destruct (outcome (persistStep env p st org (fst up) (snd up)
                                   (Form.setLoading true st))) as [[]|e].
    + eexists. cbn [trace app]. reflexivity.
    + eexists. cbn [trace app]. rewrite <- !app_assoc. reflexivity.
  - exists (catchTrace e). cbn [trace app]. now rewrite <- !app_assoc.
Qed.

Lemma uploadStep_first_upload env st org f fs s :
  Form.files st = f :: fs ->
  exists rest,
    trace (uploadStep env st org s)
    = ConsoleLog "Uploading files:"
        :: ConsoleLog "Uploading file to path:"
        :: Remote (Upload bucketId (filePath env org 0 f) f "3600" false)
        :: rest.
Proof.
  intros Hfiles.
  rewrite (uploadStep_nonempty env org st s Hfiles), uploadFiles_cons.
  cbv zeta.
  destruct (Env.upload env 0 (filePath env org 0 f) f) as [[err|]|e];
    cbn [trace app]; eexists; reflexivity.
Qed.

(** A submission whose resolved responsible person is empty: the check
    of line 419 is reached only when the upload step completed. *)
Lemma submit_person_missing env p st org :
  organisation_id p = Some org -> Js.truthy org = true ->
  Js.truthy (finalResponsiblePerson p st) = false ->
  let r1 := uploadStep env st org (Form.setLoading true st) in
  submit env p st
  = mkRun (Normal tt) (Form.setLoading false (Form.setLoading true st))
      ([PreventDefault] ++ provisioning env ++ trace r1
         ++ catchTrace
              (match outcome r1 with
               | Normal _ => Js.newError "Responsible person is required"
               | Throw e => e
               end))%list.
Proof.
  intros Horg Htruthy Hperson r1. subst r1.
  rewrite (handleSubmit_run env p st Horg Htruthy), submitBody_run.
  cbv zeta. unfold persistStep. rewrite Hperson. cbn [negb]. unfold throw.
  destruct (outcome (uploadStep env st org (Form.setLoading true st)))
    as [up|e]; cbn [outcome store trace app];
    rewrite <- ?app_assoc, ?app_nil_r; reflexivity.
Qed.

Lemma uploadFiles_rejection env org pre file post e : forall i ns ps s,
  uploadsSucceed env org i pre ->
  Env.upload env (i + List.length pre)
             (filePath env org (i + List.length pre) file) file
  = Rejects e ->
  uploadFiles env org i (pre ++ file :: post) ns ps s
  = mkRun (Throw e) s
          (uploadedTrace env org i pre
             ++ [ ConsoleLog "Uploading file to path:";
                  Remote (Upload bucketId
                                 (filePath env org (i + List.length pre) file)
                                 file "3600" false) ])%list.
Proof.
  induction pre as [|f pre' IH]; intros i ns ps s Hok Hrej.
  - cbn [List.length] in *. rewrite Nat.add_0_r in *.
    cbn [app uploadedTrace]. rewrite uploadFiles_cons. cbv zeta.
    rewrite Hrej. reflexivity.
  - destruct Hok as [Hup Hok]. cbn [app List.length] in *.
    replace (i + S (List.length pre')) with (S i + List.length pre')
      in * by lia.
    rewrite uploadFiles_cons. cbv zeta.
    rewrite Hup, (IH (S i) _ _ s Hok Hrej). reflexivity.
Qed.

Lemma uploadStep_rejection env st org pre file post e s :
  Form.files st = (pre ++ file :: post)%list ->
  uploadsSucceed env org 0 pre ->
  Env.upload env (List.length pre)
             (filePath env org (List.length pre) file) file
  = Rejects e ->
  uploadStep env st org s
  = mkRun (Throw e) s
          ([ConsoleLog "Uploading files:"]
             ++ uploadedTrace env org 0 pre
             ++ [ ConsoleLog "Uploading file to path:";
                  Remote (Upload bucketId
                                 (filePath env org (List.length pre) file)
                                 file "3600" false) ])%list.
Proof.
  intros Hfiles Hok Hrej. unfold uploadStep. rewrite Hfiles.
  assert (Hlen : (0 <? List.length (pre ++ file :: post))%nat = true).
  { apply Nat.ltb_lt. rewrite length_app. cbn. lia. }
  rewrite Hlen. run_monad.
  rewrite (@uploadFiles_rejection env org pre file post e 0 [] [] s
             Hok Hrej).
  reflexivity.
Qed.

(** ** Comma-separated entries *)




(** ** Printed dates *)

Section PrintedDates.

Lemma allChars_app P a b :
  allChars P (a ++ b) = allChars P a && allChars P b.
Proof.
  induction a as [|c a IH]; cbn; [reflexivity|].
  now rewrite IH, andb_assoc.
Qed.

Lemma allChars_weaken (P Q : ascii -> bool) s :
  (forall c, P c = true -> Q c = true) ->
  allChars P s = true -> allChars Q s = true.
Proof.
  intros HPQ. induction s as [|c s IH]; cbn; [reflexivity|].
  intros H. apply andb_true_iff in H as [Hc Hs].
  now rewrite (HPQ c Hc), IH.
Qed.

Lemma digits_of_uint u : allChars isDigit (NilEmpty.string_of_uint u) = true.
Proof. induction u; cbn; auto. Qed.

Lemma digits_of_zeros k :
  allChars isDigit (String.concat "" (repeat "0" k)) = true.
Proof.
  induction k as [|k IH]; [reflexivity|].
  cbn [repeat String.concat]. destruct (repeat "0" k) eqn:E.
  - reflexivity.
  - rewrite allChars_app. cbn [allChars append]. exact IH.
Qed.

Lemma digits_of_pad w n : allChars isDigit (Date.pad w n) = true.
Proof.
  unfold Date.pad, Js.padStart0, Js.of_N.
  now rewrite allChars_app, digits_of_zeros, digits_of_uint.
Qed.

Lemma isDigit_isDateChar c : isDigit c = true -> isDateChar c = true.
Proof. unfold isDateChar. now intros ->. Qed.

Lemma dateChars_of_pad w n : allChars isDateChar (Date.pad w n) = true.
Proof.
  apply (allChars_weaken isDigit); [apply isDigit_isDateChar|].
  apply digits_of_pad.
Qed.

Lemma dateChars_of_isoDate f : allChars isDateChar (Date.isoDate f) = true.
Proof.
  unfold Date.isoDate, Date.isoYear.
  destruct ((0 <=? Date.year f)%Z && (Date.year f <=? 9999)%Z);
    [|destruct (Date.year f <? 0)%Z];
    rewrite ?allChars_app; cbn [allChars append];
    rewrite ?allChars_app; cbn [allChars append];
    rewrite ?allChars_app; cbn [allChars append];
    now rewrite !dateChars_of_pad.
Qed.

(** Splitting at a separator that the first segment does not contain. *)
Lemma split_first sep a b :
  allChars (fun c => negb (Ascii.eqb c sep)) a = true ->
  Js.split sep (a ++ String sep b) = a :: Js.split sep b.
Proof.
  induction a as [|c a IH]; cbn.
  - intros _. now rewrite Ascii.eqb_refl.
  - intros H. apply andb_true_iff in H as [Hc Ha].
    apply negb_true_iff in Hc. rewrite Hc, (IH Ha). reflexivity.
Qed.

Lemma isDateChar_not_T c :
  isDateChar c = true -> negb (Ascii.eqb c "T") = true.
Proof.
  destruct c as [[|] [|] [|] [|] [|] [|] [|] [|]];
    cbv; intros H; try reflexivity; discriminate.
Qed.

Lemma truthy_isoDate f : Js.truthy (Date.isoDate f) = true.
Proof.
  unfold Date.isoDate.
  destruct (Date.isoYear (Date.year f)); reflexivity.
Qed.

(** Line 435 on a valid Date: the text of [toISOString] up to the "T". *)
Lemma nextReviewDateValue_valid f :
  nextReviewDateValue (Some (Date.Valid f)) = inr (Some (Date.isoDate f)).
Proof.
  unfold nextReviewDateValue, Date.toISOString.
  change (Date.isoDate f ++ "T" ++ Date.isoTime f)
    with (Date.isoDate f ++ String "T" (Date.isoTime f)).
  rewrite split_first.
  - now rewrite truthy_isoDate.
  - apply (allChars_weaken isDateChar); [apply isDateChar_not_T|].
    apply dateChars_of_isoDate.
Qed.

Lemma belowN_spec (P : N -> bool) k :
  forallb P (belowN k) = true ->
  forall n, (n < k)%N -> P n = true.
Proof.
  intros H n Hn. rewrite forallb_forall in H. apply H.
  unfold belowN. apply in_map_iff. exists (N.to_nat n).
  split; [apply N2Nat.id|]. apply in_seq. lia.
Qed.

Lemma pad2_twoDigits n : (n < 100)%N -> twoDigits (Date.pad 2 n) = true.
Proof.
  apply (@belowN_spec (fun n => twoDigits (Date.pad 2 n)) 100%N).
  vm_compute. reflexivity.
Qed.

Lemma pad4_fourDigits n : (n < 10000)%N -> fourDigits (Date.pad 4 n) = true.
Proof.
  apply (@belowN_spec (fun n => fourDigits (Date.pad 4 n)) 10000%N).
  vm_compute. reflexivity.
Qed.

(** With a four-digit year the printed date has the shape YYYY-MM-DD. *)
Lemma isoDate_shape f :
  (0 <= Date.year f <= 9999)%Z ->
  (Date.month f <= 12)%N -> (Date.day f <= 31)%N ->
  isCalendarDate (Date.isoDate f) = true.
Proof.
  intros Hy Hm Hd. unfold Date.isoDate, Date.isoYear.
  replace ((0 <=? Date.year f)%Z && (Date.year f <=? 9999)%Z) with true
    by (symmetry; apply andb_true_iff; split; apply Z.leb_le; lia).
  assert (H4 : fourDigits (Date.pad 4 (Z.to_N (Date.year f))) = true)
    by (apply pad4_fourDigits; lia).
  assert (Hm2 : twoDigits (Date.pad 2 (Date.month f)) = true)
    by (apply pad2_twoDigits; lia).
  assert (Hd2 : twoDigits (Date.pad 2 (Date.day f)) = true)
    by (apply pad2_twoDigits; lia).
  destruct (Date.pad 4 (Z.to_N (Date.year f)))
    as [|y1 [|y2 [|y3 [|y4 [|? ?]]]]]; try discriminate.
  destruct (Date.pad 2 (Date.month f)) as [|m1 [|m2 [|? ?]]];
    try discriminate.
  destruct (Date.pad 2 (Date.day f)) as [|d1 [|d2 [|? ?]]];
    try discriminate.
  cbn [fourDigits twoDigits] in H4, Hm2, Hd2.
  repeat match goal with
         | H : _ && _ = true |- _ => apply andb_true_iff in H as [? ?]
         end.
  cbn [append isCalendarDate].
  repeat match goal with
         | H : isDigit _ = true |- _ => rewrite H; clear H
         end.
  reflexivity.
Qed.

End PrintedDates.

(** A submission that did not succeed leaves every entry in place. *)
Lemma submit_failed_keeps_entries env p st :
  succeeded (submit env p st) = false ->
  sameEntries (store (submit env p st)) st.
Proof.
  unfold succeeded. intros H.
  destruct (Js.truthy_opt (organisation_id p)) eqn:Horg.
  2:{ rewrite (handleSubmit_no_organisation env p st Horg).
      repeat split. }
  destruct (organisation_id p) as [org|] eqn:Eorg; [|discriminate].
  cbn [Js.truthy_opt] in Horg.
  rewrite (handleSubmit_run env p st Eorg Horg), submitBody_run in *.
  cbv zeta in *.
  pose proof (uploadStep_store env org st (Form.setLoading true st)) as Hs.
  destruct (uploadStep env st org (Form.setLoading true st))
    as [[up|e] s1 t1]; cbn [outcome store trace] in *; subst s1;
    [|repeat split].
  rewrite persistStep_run in *.
  destruct (Js.truthy (finalResponsiblePerson p st)); [|repeat split].
  destruct (nextReviewDateValue (Form.nextReviewDate st)) as [e|d];
    [repeat split|].
  cbv zeta in *.
  destruct (Env.insert env _) as [[err|]|e]; try (repeat split; fail).
  exfalso. cbn [outcome store trace] in H. apply Nat.ltb_ge in H.
  rewrite successCalls_cons, !successCalls_app in H.
  unfold successCalls at 3 in H. cbn [flat_map app List.length] in H. lia.
Qed.

(** ** Properties of the submission workflow *)

(** C1, as the code has it.  When an admin submits without a selected
    responsible person (the organisation being present), no row is ever
    inserted and [onSuccess] is not called.  The check sits after bucket
    provisioning and the upload loop: when every upload succeeds, the
    requests of the run are those of provisioning followed by the upload
    of every attached file, and only then is the submission rejected
    with the toast "Responsible person is required".  What keeps such a
    submission from being started is the submit button, which is
    disabled in this state. *)
Theorem missing_person_rejected_before_insert env p st org :
  organisation_id p = Some org -> Js.truthy org = true ->
  isAdmin p = true -> Form.responsiblePerson st = "" ->
  let r := submit env p st in
  insertsOf (trace r) = []
  /\ successCalls (trace r) = 0
  /\ submitDisabled p st = true
  /\ (uploadsSucceed env org 0 (Form.files st) ->
      toastsOf (trace r)
      = [("Error", "Responsible person is required", Destructive)]
      /\ requests (trace r)
         = (requests (provisioning env)
              ++ map (fun pf => Upload bucketId (fst pf) (snd pf)
                                       "3600" false)
                     (combine (pathsFrom env org 0 (Form.files st))
                              (Form.files st)))%list).
Proof.
  intros Horg Htruthy Hadmin Hempty r. subst r.
  assert (Hperson : Js.truthy (finalResponsiblePerson p st) = false).
  { unfold finalResponsiblePerson. now rewrite Hadmin, Hempty. }
  rewrite (submit_person_missing env p st Horg Htruthy Hperson).
  cbv zeta. cbn [trace]. read_trace.
  destruct (provisioning_quiet env) as (_ & Hpi & Hpt & Hpc & _).
  destruct (uploadStep_quiet env org st (Form.setLoading true st))
    as (Hui & Hut & Huc & _).
  rewrite Hpi, Hpc, Hui, Huc.
  split; [reflexivity|]. split; [reflexivity|].
  split.
  { unfold submitDisabled. rewrite Hadmin, Hempty.
    cbn [Js.truthy negb andb]. now rewrite !orb_true_r. }
  intros Hok.
  rewrite (uploadStep_success env org st _ Hok). cbn [outcome trace].
  rewrite Hpt. destruct (uploadStepTrace_quiet env org st) as (_ & -> & _).
  rewrite uploadStepTrace_requests.
  split; [reflexivity|]. cbn. now rewrite app_nil_r.
Qed.

Lemma missing_person_rejected_before_insert_witness :
  insertsOf (trace (submit Example.backend Example.admin
                           (Example.filled "" [Example.report])))
  = []
  /\ toastsOf (trace (submit Example.backend Example.admin
                             (Example.filled "" [Example.report])))
     = [("Error", "Responsible person is required", Destructive)].
Proof.
  destruct (@missing_person_rejected_before_insert Example.backend
              Example.admin (Example.filled "" [Example.report]) "org1"
              eq_refl eq_refl eq_refl eq_refl)
    as (Hins & _ & _ & Hrest).
  split; [exact Hins|].
  exact (proj1 (Hrest (conj eq_refl I))).
Defined.

(** C1, as stated, fails: an admin who submits one file without a
    selected responsible person is rejected only after the bucket
    listing and the upload of the file have been requested. *)
Lemma missing_person_rejected_after_uploads :
  isAdmin Example.admin = true
  /\ Form.responsiblePerson (Example.filled "" [Example.report]) = ""
  /\ trace (submit Example.backend Example.admin
                   (Example.filled "" [Example.report]))
     = [ PreventDefault;
         Remote ListBuckets;
         ConsoleLog "Uploading files:";
         ConsoleLog "Uploading file to path:";
         Remote (Upload "compliance-evidence"
                        "org1/1700000000000_4fzyo82mv.pdf"
                        Example.report "3600" false);
         ConsoleLog "Upload successful:";
         ConsoleError "Error adding compliance record:"
                      (Js.newError "Responsible person is required");
         Toast "Error" "Responsible person is required" Destructive ]
  /\ requests (trace (submit Example.backend Example.admin
                             (Example.filled "" [Example.report])))
     <> [].
Proof.
  repeat split; try reflexivity. cbv. discriminate.
Qed.

(** C2.  A submission whose caller has no organisation identifier (absent,
    or the empty string, which the guard treats alike) is rejected with
    the toast "Organisation not found"; it sends no request at all and
    leaves the state untouched.  Nor does the standards loader send a
    request for such a caller, whether called directly or through the
    effect run when the dialog opens. *)
Theorem no_organisation_no_request env p st :
  Js.truthy_opt (organisation_id p) = false ->
  toastsOf (trace (submit env p st))
  = [("Error", "Organisation not found", Destructive)]
  /\ requests (trace (submit env p st)) = []
  /\ store (submit env p st) = st
  /\ (forall s, requests (trace (fetchStandards env p s)) = [])
  /\ (forall s, requests (trace (openEffect env p s)) = []).
Proof.
  intros H. rewrite (handleSubmit_no_organisation env p st H).
  repeat split.
  - intros s. unfold fetchStandards.
    destruct (organisation_id p) as [org|]; cbn in H; [rewrite H|];
      reflexivity.
  - intros s. unfold openEffect. rewrite H, andb_false_r. reflexivity.
Qed.

Lemma no_organisation_no_request_witness :
  toastsOf (trace (submit Example.backend Example.stranger
                          (Example.filled "Bob Ray" [Example.report])))
  = [("Error", "Organisation not found", Destructive)]
  /\ requests (trace (submit Example.backend Example.stranger
                             (Example.filled "Bob Ray" [Example.report])))
     = [].
Proof.
  destruct (no_organisation_no_request Example.backend Example.stranger
              (Example.filled "Bob Ray" [Example.report]) eq_refl)
    as (Htoast & Hreq & _).
  split; assumption.
Defined.




(** C4.  For a caller who is not an admin, whatever the responsible-person
    cell holds, the row of a successful submission carries the caller's
    own name: the full name when there is one, the e-mail address when
    the full name is absent or empty.  Such a caller is shown a read-only
    input with that name instead of the roster selector.  Both names are
    enough for the submission to go through: once the organisation is
    known, the uploads succeed, the date prints and the backend accepts
    the row, a caller with a full name has it persisted, and a caller
    with no full name but an e-mail address has the address persisted. *)
Theorem member_is_own_responsible_person env p st v :
  isAdmin p = false ->
  let form := Form.setResponsiblePerson v st in
  (succeeded (submit env p form) = true ->
   exists row caller,
     insertsOf (trace (submit env p form)) = [row]
     /\ organisationMember p = Some caller
     /\ ComplianceRecord.responsible_person row = memberName p
     /\ (Js.truthy_opt (Member.full_name caller) = true ->
         Member.full_name caller
         = Some (ComplianceRecord.responsible_person row))
     /\ (Js.truthy_opt (Member.full_name caller) = false ->
         Member.email caller = Some (ComplianceRecord.responsible_person row)))
  /\ (forall st', responsibleField p st' = ReadOnlyInput (memberName p))
  /\ (forall caller org d,
        organisationMember p = Some caller ->
        organisation_id p = Some org -> Js.truthy org = true ->
        uploadsSucceed env org 0 (Form.files form) ->
        nextReviewDateValue (Form.nextReviewDate form) = inr d ->
        Env.insert env (insertedRow env p form org d) = Resolves None ->
        (forall name,
            Member.full_name caller = Some name -> Js.truthy name = true ->
            succeeded (submit env p form) = true
            /\ map ComplianceRecord.responsible_person
                   (insertsOf (trace (submit env p form))) = [name])
        /\ (forall email,
              Js.truthy_opt (Member.full_name caller) = false ->
              Member.email caller = Some email -> Js.truthy email = true ->
              succeeded (submit env p form) = true
              /\ map ComplianceRecord.responsible_person
                     (insertsOf (trace (submit env p form))) = [email])).
Proof.
  intros Hrole form. split; [|split].
  - intros H.
    destruct (submit_succeeded_run env p _ H)
      as (org & d & Horg & _ & Hperson & _ & ->).
    cbn [trace].
    unfold finalResponsiblePerson in Hperson. rewrite Hrole in Hperson.
    destruct (organisationMember p) as [caller|] eqn:Hcaller.
    2:{ unfold memberName in Hperson. rewrite Hcaller in Hperson.
        discriminate. }
    exists (insertedRow env p form org d), caller.
    split; [apply successTrace_inserts|]. split; [reflexivity|].
    cbn [insertedRow composeRow ComplianceRecord.responsible_person].
    unfold finalResponsiblePerson. rewrite Hrole.
    split; [reflexivity|].
    unfold memberName in *. rewrite Hcaller in *.
    unfold Js.or_opt, Js.or_str in *.
    destruct (Member.full_name caller) as [[|c n]|]; cbn in *;
      (split; [intros E; try discriminate; reflexivity|]);
      intros E; try discriminate;
      destruct (Member.email caller) as [[|c' e]|]; cbn in *;
        try discriminate; reflexivity.
  - intros st'. unfold responsibleField. now rewrite Hrole.
  - intros caller org d Hcaller Horg Htruthy Hup Hdate Hins.
    assert (Hgo : forall name, memberName p = name ->
              Js.truthy name = true ->
              succeeded (submit env p form) = true
              /\ map ComplianceRecord.responsible_person
                     (insertsOf (trace (submit env p form))) = [name]).
    { intros name Hname Hn.
      assert (Hfinal : finalResponsiblePerson p form = name)
        by (unfold finalResponsiblePerson; now rewrite Hrole).
      rewrite (@submit_success env p form org d Horg Htruthy Hup
                 ltac:(now rewrite Hfinal) Hdate Hins).
      unfold succeeded. cbn [trace].
      rewrite (proj1 (successTrace_calls env p form org d)).
      rewrite successTrace_inserts.
      split; [reflexivity|].
      cbn [map insertedRow composeRow ComplianceRecord.responsible_person].
      now rewrite Hfinal. }
    split.
    + intros name Hfull Hn. apply Hgo; [|exact Hn].
      unfold memberName. rewrite Hcaller, Hfull.
      unfold Js.or_opt, Js.or_str. cbn [Js.truthy_opt]. now rewrite !Hn.
    + intros email Hfull Hmail He. apply Hgo; [|exact He].
      unfold memberName. rewrite Hcaller, Hmail.
      unfold Js.or_opt, Js.or_str. now rewrite Hfull, He.
Qed.

Lemma member_is_own_responsible_person_witness :
  (exists row,
     insertsOf (trace (submit Example.backend Example.member
                              (Form.setResponsiblePerson "Bob Ray"
                                 (Example.filled "" []))))
     = [row]
     /\ ComplianceRecord.responsible_person row = "Ann Lee")
  /\ succeeded (submit Example.backend Sample.emailOnly
                       (Form.setResponsiblePerson "Bob Ray"
                          (Example.filled "" [])))
     = true
  /\ map ComplianceRecord.responsible_person
         (insertsOf (trace (submit Example.backend Sample.emailOnly
                                   (Form.setResponsiblePerson "Bob Ray"
                                      (Example.filled "" [])))))
     = ["cy@example.org"].
Proof.
  split.
  - destruct (member_is_own_responsible_person Example.backend
                Example.member (Example.filled "" []) "Bob Ray" eq_refl)
      as (Hrow & _).
    destruct (Hrow eq_refl) as (row & caller & Hins & _ & Hname & _).
    exists row. split; [exact Hins | exact Hname].
  - destruct (member_is_own_responsible_person Example.backend
                Sample.emailOnly (Example.filled "" []) "Bob Ray" eq_refl)
      as (_ & _ & Hgo).
    destruct (Hgo _ "org1" (Some "2024-03-09") eq_refl eq_refl eq_refl
                I eq_refl eq_refl) as (_ & Hmail).
    exact (Hmail "cy@example.org" eq_refl eq_refl eq_refl).
Defined.

(** C5, as the code has it.  When the upload of file K fails after the
    uploads of files 1..K-1 succeeded, whether the storage client
    reports an error or its promise rejects, the upload requests of the
    run are exactly those of files 1..K, in order, so files K+1..N are
    never attempted; no row is inserted and [onSuccess] is not called.
    The requests of the whole run are those of provisioning followed by
    these K uploads: nothing is sent after the failed upload, in
    particular nothing that would remove the K-1 stored objects.  One
    error toast is shown.  For a reported error it is "Failed to upload
    file <name of K>: <message of the cause>".  For a rejected promise
    it is the message of the thrown value when that is an [Error], and
    "Failed to add compliance record" otherwise: the file is not
    named. *)
Theorem failed_upload_aborts_without_rollback
    env p st org pre file post reply :
  organisation_id p = Some org -> Js.truthy org = true ->
  Form.files st = (pre ++ file :: post)%list ->
  uploadsSucceed env org 0 pre ->
  Env.upload env (List.length pre)
             (filePath env org (List.length pre) file) file
  = reply ->
  reply <> Resolves None ->
  let r := submit env p st in
  let attempted := (pre ++ [file])%list in
  uploadsOf (trace r) = combine (pathsFrom env org 0 attempted) attempted
  /\ insertsOf (trace r) = []
  /\ successCalls (trace r) = 0
  /\ requests (trace r)
     = (requests (provisioning env)
          ++ map (fun pf => Upload bucketId (fst pf) (snd pf) "3600" false)
                 (combine (pathsFrom env org 0 attempted) attempted))%list
  /\ (forall err,
        reply = Resolves (Some err) ->
        toastsOf (trace r)
        = [("Error",
            "Failed to upload file " ++ File.name file ++ ": "
              ++ Js.message err,
            Destructive)])
  /\ (forall e,
        reply = Rejects e ->
        toastsOf (trace r)
        = [("Error",
            if Js.instanceofError e then Js.message e
            else "Failed to add compliance record",
            Destructive)]).
Proof.
  intros Horg Htruthy Hfiles Hok Hreply Hfail r attempted.
  subst r attempted.
  rewrite (handleSubmit_run env p st Horg Htruthy), submitBody_run.
  destruct reply as [[err|]|e]; [| contradiction |].
  - rewrite (@uploadStep_failure env st org pre file post err _
               Hfiles Hok Hreply).
    cbv zeta. cbn [outcome store trace].
    change (PreventDefault :: ?t) with ([PreventDefault] ++ t)%list.
    read_trace.
    destruct (provisioning_quiet env) as (-> & -> & -> & -> & _).
    destruct (uploadedTrace_quiet env org pre 0) as (-> & -> & -> & _).
    rewrite uploadedTrace_uploads, uploadedTrace_requests, uploads_snoc.
    rewrite map_app. cbn.
    repeat split; rewrite ?app_nil_r; try reflexivity.
    + intros err' E. now injection E as <-.
    + intros e E. discriminate E.
  - rewrite (@uploadStep_rejection env st org pre file post e _
               Hfiles Hok Hreply).
    cbv zeta. cbn [outcome store trace].
    change (PreventDefault :: ?t) with ([PreventDefault] ++ t)%list.
    read_trace.
    destruct (provisioning_quiet env) as (-> & -> & -> & -> & _).
    destruct (uploadedTrace_quiet env org pre 0) as (-> & -> & -> & _).
    rewrite uploadedTrace_uploads, uploadedTrace_requests, uploads_snoc.
    rewrite map_app. cbn.
    repeat split; rewrite ?app_nil_r; try reflexivity.
    + intros err E. discriminate E.
    + intros e' E. now injection E as <-.
Qed.

Lemma failed_upload_aborts_without_rollback_witness :
  uploadsOf (trace (submit Example.secondUploadFails Example.member
                           (Example.filled ""
                              [Example.report; Example.readme;
                               Example.photo])))
  = [ ("org1/1700000000000_4fzyo82mv.pdf", Example.report);
      ("org1/1700000000001_4fzyo82mv.README", Example.readme) ]
  /\ toastsOf (trace (submit Example.secondUploadFails Example.member
                             (Example.filled ""
                                [Example.report; Example.readme;
                                 Example.photo])))
     = [("Error", "Failed to upload file README: quota exceeded",
         Destructive)]
  /\ insertsOf (trace (submit Example.secondUploadFails Example.member
                              (Example.filled ""
                                 [Example.report; Example.readme;
                                  Example.photo])))
     = [].
Proof.
  assert (Hfail : Resolves (Some Example.quotaExceeded)
                  <> Resolves (@None Js.Error)) by discriminate.
  pose proof (@failed_upload_aborts_without_rollback
                Example.secondUploadFails Example.member
                (Example.filled ""
                   [Example.report; Example.readme; Example.photo])
                "org1" [Example.report] Example.readme [Example.photo]
                (Resolves (Some Example.quotaExceeded))
                eq_refl eq_refl eq_refl (conj eq_refl I) eq_refl Hfail)
    as (Hup & Hins & _ & _ & Htoast & _).
  split; [exact Hup|]. split; [exact (Htoast _ eq_refl) | exact Hins].
Defined.

(** C5, as stated, fails: when the promise of the second of three
    uploads rejects with a value that is not an [Error], the upload has
    failed, the third file is not attempted and nothing is inserted,
    but the error shown is "Failed to add compliance record", which
    names neither the file nor the cause. *)
Lemma rejected_upload_toast_omits_file_name :
  Env.upload Sample.secondUploadRejects 1
             (filePath Sample.secondUploadRejects "org1" 1 Example.readme)
             Example.readme
  = Rejects Sample.timeout
  /\ map snd
         (uploadsOf (trace (submit Sample.secondUploadRejects Example.member
                                   (Example.filled ""
                                      [Example.report; Example.readme;
                                       Example.photo]))))
     = [Example.report; Example.readme]
  /\ insertsOf (trace (submit Sample.secondUploadRejects Example.member
                              (Example.filled ""
                                 [Example.report; Example.readme;
                                  Example.photo])))
     = []
  /\ toastsOf (trace (submit Sample.secondUploadRejects Example.member
                             (Example.filled ""
                                [Example.report; Example.readme;
                                 Example.photo])))
     = [("Error", "Failed to add compliance record", Destructive)].
Proof. repeat split. Qed.

(** C6, as the code has it.  [createStorageBucket] completes normally
    and leaves the state untouched whatever the storage service answers.
    Every error thrown in it is logged under "Error with storage bucket:"
    and goes no further: a rejected bucket listing, a rejected bucket
    creation, and an error reported by bucket creation (which is also
    logged under "Error creating bucket:" before it is thrown).  A
    listing that fails inside a resolved result, so without data, is
    not read and not logged: the bucket is taken as absent, its
    creation is requested, and when that succeeds the error log stays
    empty.  In a submission with an organisation the upload step always
    follows provisioning, and with at least one file attached the upload
    of the first file is requested, whatever the provisioning outcome. *)
Theorem provisioning_errors_are_swallowed env p st org :
  organisation_id p = Some org -> Js.truthy org = true ->
  (forall s, outcome (createStorageBucket env s) = Normal tt
             /\ store (createStorageBucket env s) = s)
  /\ (forall s e,
        Env.listBuckets env = Rejects e ->
        errorsLogged (trace (createStorageBucket env s))
        = [("Error with storage bucket:", e)])
  /\ (forall s buckets e,
        Env.listBuckets env = Resolves buckets ->
        bucketExists buckets = false ->
        Env.createBucket env = Rejects e ->
        errorsLogged (trace (createStorageBucket env s))
        = [("Error with storage bucket:", e)])
  /\ (forall s buckets e,
        Env.listBuckets env = Resolves buckets ->
        bucketExists buckets = false ->
        Env.createBucket env = Resolves (Some e) ->
        errorsLogged (trace (createStorageBucket env s))
        = [("Error creating bucket:", e); ("Error with storage bucket:", e)])
  /\ (forall s,
        Env.listBuckets env = Resolves None ->
        Env.createBucket env = Resolves None ->
        requests (trace (createStorageBucket env s))
        = [ListBuckets; CreateBucket bucketId true allowedMimeTypes]
        /\ errorsLogged (trace (createStorageBucket env s)) = [])
  /\ (exists rest,
        trace (submit env p st)
        = ([PreventDefault] ++ trace (createStorageBucket env st)
             ++ trace (uploadStep env st org (Form.setLoading true st))
             ++ rest)%list)
  /\ (forall f fs,
        Form.files st = f :: fs ->
        In (Remote (Upload bucketId (filePath env org 0 f) f "3600" false))
           (trace (submit env p st))).
Proof.
  intros Horg Htruthy.
  split; [intros s; now rewrite createStorageBucket_run|].
  split.
  { intros s e H. unfold createStorageBucket, tryCatch, request, bind, await.
    rewrite H. reflexivity. }
  split.
  { intros s buckets e H Hb Hc.
    unfold createStorageBucket, tryCatch, request, bind, await.
    rewrite H. cbn. rewrite Hb. cbn. rewrite Hc. reflexivity. }
  split.
  { intros s buckets e H Hb Hc.
    unfold createStorageBucket, tryCatch, request, bind, await.
    rewrite H. cbn. rewrite Hb. cbn. rewrite Hc. reflexivity. }
  split.
  { intros s H Hc.
    unfold createStorageBucket, tryCatch, request, bind, await.
    rewrite H. cbn. rewrite Hc. split; reflexivity. }
  destruct (submit_reaches_upload env p st Horg Htruthy) as (rest & Hrest).
  split.
  { exists rest. now rewrite createStorageBucket_run. }
  intros f fs Hfiles. rewrite Hrest.
  destruct (uploadStep_first_upload env st org (Form.setLoading true st)
              Hfiles) as (rest' & ->).
  apply in_or_app. right. apply in_or_app. right.
  cbn. auto.
Qed.

Lemma provisioning_errors_are_swallowed_witness :
  outcome (createStorageBucket Example.storageDown Form.initial) = Normal tt
  /\ errorsLogged (trace (createStorageBucket Example.storageDown
                                              Form.initial))
     = [("Error with storage bucket:", Example.unreachable)]
  /\ In (Remote (Upload bucketId "org1/1700000000000_4fzyo82mv.pdf"
                        Example.report "3600" false))
        (trace (submit Example.storageDown Example.member
                       (Example.filled "" [Example.report]))).
Proof.
  destruct (@provisioning_errors_are_swallowed Example.storageDown
              Example.member (Example.filled "" [Example.report]) "org1"
              eq_refl eq_refl)
    as (Hnormal & Hlist & _ & _ & _ & _ & Hfirst).
  split; [apply Hnormal|].
  split; [apply Hlist; reflexivity|].
  exact (Hfirst Example.report [] eq_refl).
Defined.

(** C6, as stated, fails: when the bucket existence check fails with
    the error kept in the resolved result (no data), provisioning logs
    no error at all; it goes on to request the creation of the bucket,
    and the submission proceeds to the upload. *)
Lemma failed_listing_is_not_logged :
  Env.listBuckets Sample.listingFails = Resolves None
  /\ errorsLogged (trace (createStorageBucket Sample.listingFails
                                              Form.initial))
     = []
  /\ trace (createStorageBucket Sample.listingFails Form.initial)
     = [ Remote ListBuckets;
         ConsoleLog "Creating compliance-evidence bucket...";
         Remote (CreateBucket bucketId true allowedMimeTypes);
         ConsoleLog "Bucket created successfully" ]
  /\ errorsLogged (trace (submit Sample.listingFails Example.member
                                  (Example.filled "" [Example.report])))
     = []
  /\ succeeded (submit Sample.listingFails Example.member
                       (Example.filled "" [Example.report]))
     = true.
Proof. repeat split. Qed.

(** C7.  After every successful submission the seven form cells hold
    their initial values again, [onSuccess] has been called exactly once,
    the dialog has been told to close ([onOpenChange(false)], once), and
    the single toast is the success toast, whose description carries the
    number of files when at least one file was attached. *)
Theorem success_resets_form_and_notifies env p st :
  succeeded (submit env p st) = true ->
  let r := submit env p st in
  (Form.complianceItem (store r) = Form.complianceItem Form.initial
   /\ Form.standardClause (store r) = Form.standardClause Form.initial
   /\ Form.complianceStatus (store r) = Form.complianceStatus Form.initial
   /\ Form.responsiblePerson (store r) = Form.responsiblePerson Form.initial
   /\ Form.nextReviewDate (store r) = Form.nextReviewDate Form.initial
   /\ Form.notes (store r) = Form.notes Form.initial
   /\ Form.files (store r) = Form.files Form.initial)
  /\ successCalls (trace r) = 1
  /\ openChanges (trace r) = [false]
  /\ (exists description,
        toastsOf (trace r) = [("Success", description, Default)]
        /\ (Form.files st = [] ->
            description = "Compliance record added successfully")
        /\ (Form.files st <> [] ->
            description
            = "Compliance record added successfully with "
                ++ Js.of_nat (List.length (Form.files st)) ++ " file(s)")).
Proof.
  intros H r. subst r.
  destruct (submit_succeeded_run env p st H)
    as (org & d & _ & _ & _ & _ & ->).
  cbn [store trace].
  split; [cbn; repeat split|].
  destruct (successTrace_calls env p st org d) as [-> ->].
  repeat (split; [reflexivity|]).
  exists (successDescription (Form.files st)).
  split; [apply successTrace_toasts|].
  unfold successDescription.
  split.
  - intros ->. reflexivity.
  - intros Hne. destruct (Form.files st); [contradiction|reflexivity].
Qed.

Lemma success_resets_form_and_notifies_witness :
  store (submit Example.backend Example.member
                (Example.filled "" [Example.report; Example.readme]))
  = Form.setStandardsLoading false Form.initial
  /\ toastsOf (trace (submit Example.backend Example.member
                             (Example.filled ""
                                [Example.report; Example.readme])))
     = [("Success", "Compliance record added successfully with 2 file(s)",
         Default)]
  /\ successCalls (trace (submit Example.backend Example.member
                                 (Example.filled ""
                                    [Example.report; Example.readme])))
     = 1.
Proof.
  pose proof (success_resets_form_and_notifies Example.backend Example.member
                (Example.filled "" [Example.report; Example.readme]) eq_refl)
    as (_ & Hcalls & _).
  split; [reflexivity|]. split; [reflexivity|]. exact Hcalls.
Defined.

(** C8.  In every successful submission the inserted row's
    [next_review_date] is null when no date was picked.  When a date was
    picked it is a valid Date and the value is the text of its
    [toISOString()] up to the "T": year, month and day joined by
    hyphens, made of digits and hyphens only (and the sign of an
    expanded year), hence without any time component; for a four-digit
    year it has the shape YYYY-MM-DD. *)
Theorem review_date_persisted_as_calendar_date env p st :
  succeeded (submit env p st) = true ->
  exists row,
    insertsOf (trace (submit env p st)) = [row]
    /\ match Form.nextReviewDate st with
       | None => ComplianceRecord.next_review_date row = None
       | Some picked =>
           exists f,
             picked = Date.Valid f
             /\ Date.toISOString picked
                = inr (Date.isoDate f ++ "T" ++ Date.isoTime f)
             /\ ComplianceRecord.next_review_date row
                = Some (Date.isoDate f)
             /\ allChars isDateChar (Date.isoDate f) = true
             /\ ((0 <= Date.year f <= 9999)%Z ->
                 (Date.month f <= 12)%N -> (Date.day f <= 31)%N ->
                 isCalendarDate (Date.isoDate f) = true)
       end.
Proof.
  intros H.
  destruct (submit_succeeded_run env p st H)
    as (org & d & _ & _ & _ & Hd & ->).
  exists (insertedRow env p st org d). cbn [trace].
  split; [apply successTrace_inserts|].
  cbn [insertedRow composeRow ComplianceRecord.next_review_date].
  destruct (Form.nextReviewDate st) as [[|f]|].
  - discriminate Hd.
  - exists f. rewrite nextReviewDateValue_valid in Hd.
    injection Hd as <-.
    repeat split; auto using dateChars_of_isoDate, isoDate_shape.
  - cbn in Hd. now injection Hd as <-.
Qed.

Lemma review_date_persisted_as_calendar_date_witness :
  exists row,
    insertsOf (trace (submit Example.backend Example.member
                             (Example.filled "" [])))
    = [row]
    /\ ComplianceRecord.next_review_date row = Some "2024-03-09".
Proof.
  destruct (review_date_persisted_as_calendar_date Example.backend
              Example.member (Example.filled "" []) eq_refl)
    as (row & Hrow & f & Hf & _ & Hdate & _).
  exists row. split; [exact Hrow|].
  cbn in Hf. injection Hf as <-. exact Hdate.
Defined.

(** C9, as the code has it.  The close control and the Cancel button only
    call [onOpenChange(false)]: the state of the component is exactly
    what it was, so every entry and the file selection are still there
    when the dialog is shown again.  A submission that failed does not
    clear them either; only a successful submission resets the form. *)
Theorem closing_keeps_form_state env p st :
  closeClick st = mkRun (Normal tt) st [OnOpenChange false]
  /\ cancelClick st = mkRun (Normal tt) st [OnOpenChange false]
  /\ (succeeded (submit env p st) = false ->
      sameEntries (store (closeClick (store (submit env p st)))) st
      /\ sameEntries (store (cancelClick (store (submit env p st)))) st).
Proof.
  split; [reflexivity|]. split; [reflexivity|].
  intros H. split; apply (submit_failed_keeps_entries env p st H).
Qed.

Lemma closing_keeps_form_state_witness :
  sameEntries
    (store (cancelClick
              (store (submit Example.secondUploadFails Example.member
                             (Example.filled ""
                                [Example.report; Example.readme])))))
    (Example.filled "" [Example.report; Example.readme]).
Proof.
  destruct (closing_keeps_form_state Example.secondUploadFails
              Example.member
              (Example.filled "" [Example.report; Example.readme]))
    as (_ & _ & Hfailed).
  exact (proj2 (Hfailed eq_refl)).
Defined.

(** C9, as stated, fails: after Cancel (or the close control) on a
    filled-in form, the entries and the selected file are still in the
    component's state. *)
Lemma cancel_does_not_discard_entries :
  store (cancelClick (Example.filled "Bob Ray" [Example.report]))
  = Example.filled "Bob Ray" [Example.report]
  /\ store (closeClick (Example.filled "Bob Ray" [Example.report]))
     = Example.filled "Bob Ray" [Example.report]
  /\ Form.complianceItem
       (store (cancelClick (Example.filled "Bob Ray" [Example.report])))
     = "Fire drill"
  /\ Form.files
       (store (cancelClick (Example.filled "Bob Ray" [Example.report])))
     = [Example.report]
  /\ store (cancelClick (Example.filled "Bob Ray" [Example.report]))
     <> Form.initial.
Proof.
  repeat split. discriminate.
Qed.

(** C10.  In every successful submission exactly one row is inserted, and
    its [notes] is null when the notes field is the empty string and the
    notes string itself otherwise. *)
Theorem empty_notes_persisted_as_null env p st :
  succeeded (submit env p st) = true ->
  exists row,
    insertsOf (trace (submit env p st)) = [row]
    /\ (Form.notes st = "" -> ComplianceRecord.notes row = None)
    /\ (Form.notes st <> "" ->
        ComplianceRecord.notes row = Some (Form.notes st)).
Proof.
  intros H.
  destruct (submit_succeeded_run env p st H)
    as (org & d & _ & _ & _ & _ & ->).
  exists (insertedRow env p st org d). cbn [trace].
  split; [apply successTrace_inserts|].
  cbn [insertedRow composeRow ComplianceRecord.notes]. unfold notesValue.
  split.
  - intros ->. reflexivity.
  - intros Hne. destruct (Form.notes st); [contradiction|reflexivity].
Qed.

Lemma empty_notes_persisted_as_null_witness :
  exists row,
    insertsOf (trace (submit Example.backend Example.member
                             (Example.filled "" [])))
    = [row]
    /\ ComplianceRecord.notes row = None.
Proof.
  destruct (empty_notes_persisted_as_null Example.backend Example.member
              (Example.filled "" []) eq_refl)
    as (row & Hrow & Hempty & _).
  exists row. split; [exact Hrow | exact (Hempty eq_refl)].
Defined.

(** ** Every run of the dialog's handlers *)

Section EveryRun.

Variables (env : Env.t) (org : string).

(** The loop attempts a prefix of the selection, in order. *)
Lemma uploadFiles_attempts rest : forall i ns ps s,
  let r := uploadFiles env org i rest ns ps s in
  exists k,
    k <= List.length rest
    /\ uploadsOf (trace r)
       = firstn k (combine (pathsFrom env org i rest) rest)
    /\ requests (trace r)
       = map (fun pf => Upload bucketId (fst pf) (snd pf) "3600" false)
             (firstn k (combine (pathsFrom env org i rest) rest)).
Proof.
  induction rest as [|file rest' IH]; intros i ns ps s; cbv zeta.
  - exists 0. repeat split. apply Nat.le_refl.
  - rewrite uploadFiles_cons. cbv zeta.
    destruct (Env.upload env i (filePath env org i file) file)
      as [[err|]|e].
    + exists 1. cbn [List.length]. split; [lia|]. split; reflexivity.
    + destruct (IH (S i) (ns ++ [File.name file])%list
                   (ps ++ [filePath env org i file])%list s)
        as (k & Hk & Hup & Hreq).
      exists (S k). cbn [List.length trace]. split; [lia|].
      cbn [pathsFrom combine firstn map].
      unfold uploadsOf, requests in *. cbn [flat_map app].
      rewrite Hup, Hreq. split; reflexivity.
    + exists 1. cbn [List.length]. split; [lia|]. split; reflexivity.
Qed.

Lemma uploadStep_attempts st s :
  let r := uploadStep env st org s in
  exists k,
    k <= List.length (Form.files st)
    /\ uploadsOf (trace r)
       = firstn k (combine (pathsFrom env org 0 (Form.files st))
                           (Form.files st))
    /\ requests (trace r)
       = map (fun pf => Upload bucketId (fst pf) (snd pf) "3600" false)
             (firstn k (combine (pathsFrom env org 0 (Form.files st))
                                (Form.files st))).
Proof.
  cbv zeta. destruct (Form.files st) as [|f fs] eqn:Hfiles.
  - exists 0. unfold uploadStep. rewrite Hfiles.
    split; [apply Nat.le_refl | split; reflexivity].
  - rewrite (uploadStep_nonempty env org st s Hfiles). cbn [trace].
    destruct (uploadFiles_attempts (f :: fs) 0 [] [] s)
      as (k & Hk & Hup & Hreq).
    exists k. split; [exact Hk|]. split; [exact Hup | exact Hreq].
Qed.

End EveryRun.

Lemma requests_catch e : requests (catchTrace e) = [].
Proof. reflexivity. Qed.

Lemma uploadsOf_catch e : uploadsOf (catchTrace e) = [].
Proof. reflexivity. Qed.

Lemma insertsOf_catch e : insertsOf (catchTrace e) = [].
Proof. reflexivity. Qed.

Lemma toastsOf_catch e : List.length (toastsOf (catchTrace e)) = 1.
Proof. reflexivity. Qed.

(** The requests of a whole submission, whatever the backend answers. *)
Lemma submit_requests env p st org :
  organisation_id p = Some org -> Js.truthy org = true ->
  let r := submit env p st in
  let planned := combine (pathsFrom env org 0 (Form.files st))
                         (Form.files st) in
  exists k,
    k <= List.length (Form.files st)
    /\ uploadsOf (trace r) = firstn k planned
    /\ requests (trace r)
       = (requests (provisioning env)
            ++ map (fun pf => Upload bucketId (fst pf) (snd pf) "3600" false)
                   (firstn k planned)
            ++ map (Insert "compliance_records") (insertsOf (trace r)))%list
    /\ List.length (insertsOf (trace r)) <= 1
    /\ (insertsOf (trace r) <> [] -> k = List.length (Form.files st)).
Proof.
  intros Horg Htruthy r planned. subst r planned.
  rewrite (handleSubmit_run env p st Horg Htruthy), submitBody_run.
  cbv zeta.
  destruct (provisioning_quiet env) as (Hpu & Hpi & _).
  destruct (uploadStep_quiet env org st (Form.setLoading true st))
    as (Hqi & _).
  destruct (uploadStep_attempts env org st (Form.setLoading true st))
    as (k & Hk & Hup & Hreq).
  destruct (outcome (uploadStep env st org (Form.setLoading true st)))
    as [up|e] eqn:Eup.
  2:{ exists k. cbn [outcome store trace].
      change (PreventDefault :: ?t) with ([PreventDefault] ++ t)%list.
      read_trace.
      rewrite Hpu, Hpi, Hqi, Hup, Hreq, requests_catch, uploadsOf_catch,
        insertsOf_catch.
      cbn [app uploadsOf insertsOf requests flat_map map List.length].
      rewrite !app_nil_r.
      repeat split; auto. intros H; now contradiction H. }
  pose proof (uploadStep_normal_inv _ _ _ _ Eup) as Hok.
  clear k Hk Hup Hreq.
  rewrite (uploadStep_success env org st _ Hok) in *.
  cbn [outcome store trace] in *. injection Eup as <-.
  cbn [fst snd]. rewrite persistStep_run.
  pose proof (uploadStepTrace_uploads env org st) as Hup.
  pose proof (uploadStepTrace_requests env org st) as Hreq.
  exists (List.length (Form.files st)).
  assert (Hall : forall A (l : list A) n, List.length l <= n ->
                                          firstn n l = l)
    by (intros; now apply firstn_all2).
  rewrite (Hall _ (combine _ _) (List.length (Form.files st)))
    by (rewrite length_combine, pathsFrom_length; lia).
  split; [apply Nat.le_refl|].
  destruct (Js.truthy (finalResponsiblePerson p st));
    [destruct (nextReviewDateValue (Form.nextReviewDate st)) as [e|d];
     [|cbv zeta; destruct (Env.insert env _) as [[err|]|e]]|];
    cbn [outcome store trace];
    change (PreventDefault :: ?t) with ([PreventDefault] ++ t)%list;
    read_trace;
    rewrite ?requests_catch, ?uploadsOf_catch, ?insertsOf_catch,
      Hpu, Hpi, Hqi, Hup, Hreq;
    cbn [app uploadsOf insertsOf requests flat_map map List.length];
    rewrite ?app_nil_r;
    repeat split; auto.
Qed.

(** How a submission with an organisation ends: either along the
    successful path, or in the [catch] clause with the state as it was
    apart from the loading flag. *)
Lemma submit_outline env p st org :
  organisation_id p = Some org -> Js.truthy org = true ->
  exists s' tail,
    submit env p st
    = mkRun (Normal tt) s'
        ([PreventDefault] ++ provisioning env
           ++ trace (uploadStep env st org (Form.setLoading true st))
           ++ tail)%list
    /\ ((s' = clearedForm st /\ List.length (toastsOf tail) = 1)
        \/ (s' = Form.setLoading false (Form.setLoading true st)
            /\ exists pre e,
                 tail = (pre ++ catchTrace e)%list /\ toastsOf pre = [])).
Proof.
  intros Horg Htruthy.
  rewrite (handleSubmit_run env p st Horg Htruthy), submitBody_run.
  cbv zeta.
  pose proof (uploadStep_store env org st (Form.setLoading true st)) as Hs.
  destruct (uploadStep env st org (Form.setLoading true st))
    as [[up|e] s1 t1]; cbn [outcome store trace] in *; subst s1.
  2:{ exists (Form.setLoading false (Form.setLoading true st)),
        (catchTrace e).
      split; [cbn [app]; now rewrite <- !app_assoc|].
      right. split; [reflexivity|]. now exists [], e. }
  rewrite persistStep_run.
  destruct (Js.truthy (finalResponsiblePerson p st));
    [destruct (nextReviewDateValue (Form.nextReviewDate st)) as [e|d];
     [|cbv zeta; destruct (Env.insert env _) as [[err|]|e]]|];
    cbn [outcome store trace].
  - eexists _, (_ :: catchTrace e). split.
    + cbn [app]. rewrite <- !app_assoc. reflexivity.
    + right. split; [reflexivity|]. eexists [_], e. split; reflexivity.
  - eexists _, (_ :: _ :: _ :: catchTrace _). split.
    + cbn [app]. rewrite <- !app_assoc. reflexivity.
    + right. split; [reflexivity|]. eexists [_; _; _], _.
      split; reflexivity.
  - eexists _, _. split.
    + cbn [app]. reflexivity.
    + left. split; reflexivity.
  - eexists _, (_ :: _ :: catchTrace e). split.
    + cbn [app]. rewrite <- !app_assoc. reflexivity.
    + right. split; [reflexivity|]. eexists [_; _], e. split; reflexivity.
  - eexists _, (catchTrace _). split.
    + cbn [app]. rewrite <- !app_assoc, ?app_nil_r. reflexivity.
    + right. split; [reflexivity|]. eexists [], _. split; reflexivity.
Qed.

Lemma nth_error_firstn_some {A} (l : list A) : forall k i x,
  nth_error (firstn k l) i = Some x -> nth_error l i = Some x.
Proof.
  induction l as [|a l IH]; intros [|k] [|i] x H; cbn in *;
    try discriminate; auto.
  eapply IH. exact H.
Qed.

Lemma append_assoc3 (a b c : string) : (a ++ b) ++ c = a ++ b ++ c.
Proof. induction a as [|x a IH]; cbn; [reflexivity | now rewrite IH]. Qed.

Lemma prefix_append a b : String.prefix a (a ++ b) = true.
Proof.
  induction a as [|c a IH]; cbn.
  - now destruct b.
  - destruct (ascii_dec c c) as [_|Hne]; [exact IH | now contradiction Hne].
Qed.

(** ** Further properties of the submission workflow *)

(** X1.  [handleSubmit] never throws: every run completes normally.
    When the caller has an organisation the loading flag is false at
    the end of every run, successful or not; without one the flag is
    left as it was.  The fetched standards and their loading flag are
    never touched. *)
Theorem submit_completes_and_clears_loading env p st :
  let r := submit env p st in
  outcome r = Normal tt
  /\ Form.loading (store r)
     = (if Js.truthy_opt (organisation_id p) then false
        else Form.loading st)
  /\ Form.standards (store r) = Form.standards st
  /\ Form.standardsLoading (store r) = Form.standardsLoading st.
Proof.
  cbv zeta.
  destruct (Js.truthy_opt (organisation_id p)) eqn:Horg.
  2:{ rewrite (handleSubmit_no_organisation env p st Horg).
      repeat split. }
  destruct (organisation_id p) as [org|] eqn:Eorg; [|discriminate].
  cbn [Js.truthy_opt] in Horg.
  destruct (submit_outline env p st Eorg Horg)
    as (s' & tail & -> & [[-> _] | [-> _]]); repeat split.
Qed.

(** X2.  Every submission shows exactly one toast: the success toast,
    or one error toast. *)
Theorem submit_shows_one_toast env p st :
  List.length (toastsOf (trace (submit env p st))) = 1.
Proof.
  destruct (Js.truthy_opt (organisation_id p)) eqn:Horg.
  2:{ now rewrite (handleSubmit_no_organisation env p st Horg). }
  destruct (organisation_id p) as [org|] eqn:Eorg; [|discriminate].
  cbn [Js.truthy_opt] in Horg.
  destruct (submit_outline env p st Eorg Horg) as (s' & tail & -> & Hend).
  cbn [trace]. read_trace.
  destruct (provisioning_quiet env) as (_ & _ & -> & _).
  destruct (uploadStep_quiet env org st (Form.setLoading true st))
    as (_ & -> & _).
  cbn [toastsOf flat_map app].
  destruct Hend as [[_ H] | [_ (pre & e & -> & Hpre)]]; [exact H|].
  read_trace. rewrite Hpre. reflexivity.
Qed.

(** X3.  Whatever the backend answers, the requests of a submission
    with an organisation are, in this order: those of provisioning, the
    uploads of the first k attached files in selection order (each
    under the path of its position), and at most one insert.  An insert
    is only sent after every attached file has been uploaded. *)
Theorem requests_follow_the_pipeline env p st org :
  organisation_id p = Some org -> Js.truthy org = true ->
  let r := submit env p st in
  let planned := combine (pathsFrom env org 0 (Form.files st))
                         (Form.files st) in
  exists k,
    k <= List.length (Form.files st)
    /\ uploadsOf (trace r) = firstn k planned
    /\ requests (trace r)
       = (requests (provisioning env)
            ++ map (fun pf => Upload bucketId (fst pf) (snd pf) "3600" false)
                   (firstn k planned)
            ++ map (Insert "compliance_records") (insertsOf (trace r)))%list
    /\ List.length (insertsOf (trace r)) <= 1
    /\ (insertsOf (trace r) <> [] -> k = List.length (Form.files st)).
Proof.
  intros Horg Htruthy. exact (submit_requests env p st Horg Htruthy).
Qed.

Lemma requests_follow_the_pipeline_witness :
  exists k,
    k <= 3
    /\ uploadsOf (trace (submit Example.secondUploadFails Example.member
                                (Example.filled ""
                                   [Example.report; Example.readme;
                                    Example.photo])))
       = firstn k
           [ ("org1/1700000000000_4fzyo82mv.pdf", Example.report);
             ("org1/1700000000001_4fzyo82mv.README", Example.readme);
             ("org1/1700000000002_4fzyo82mv.jpg", Example.photo) ].
Proof.
  destruct (@requests_follow_the_pipeline Example.secondUploadFails
              Example.member
              (Example.filled ""
                 [Example.report; Example.readme; Example.photo])
              "org1" eq_refl eq_refl)
    as (k & Hk & Hup & _).
  exists k. split; [exact Hk | exact Hup].
Defined.

(** X4.  The i-th upload request of any submission carries the i-th
    selected file, under the key built for that position, and this key
    lies under the caller's organisation ("<organisation_id>/...").
    Every upload goes to the bucket "compliance-evidence" with cache
    control "3600" and without overwriting. *)
Theorem uploads_are_namespaced env p st i path file :
  nth_error (uploadsOf (trace (submit env p st))) i = Some (path, file) ->
  exists org,
    organisation_id p = Some org
    /\ nth_error (Form.files st) i = Some file
    /\ path = filePath env org i file
    /\ String.prefix (org ++ "/") path = true
    /\ (forall bucket path' file' cacheControl upsert,
          In (Upload bucket path' file' cacheControl upsert)
             (requests (trace (submit env p st))) ->
          bucket = "compliance-evidence" /\ cacheControl = "3600"
          /\ upsert = false).
Proof.
  intros H.
  destruct (Js.truthy_opt (organisation_id p)) eqn:Horg.
  2:{ rewrite (handleSubmit_no_organisation env p st Horg) in H.
      destruct i; discriminate H. }
  destruct (organisation_id p) as [org|] eqn:Eorg; [|discriminate].
  cbn [Js.truthy_opt] in Horg. exists org.
  destruct (submit_requests env p st Eorg Horg)
    as (k & _ & Hup & Hreq & _).
  rewrite Hup in H. apply nth_error_firstn_some in H.
  rewrite uploads_nth in H.
  destruct (nth_error (Form.files st) i) as [f|]; [|discriminate].
  cbn [option_map Nat.add] in H. injection H as <- <-.
  repeat split.
  - unfold filePath. rewrite <- append_assoc3. apply prefix_append.
  - rewrite Hreq in H. apply in_app_or in H as [H | H].
    + destruct (provisioning_requests env) as [E | E]; rewrite E in H;
        cbn [In] in H; intuition discriminate.
    + apply in_app_or in H as [H | H]; apply in_map_iff in H
        as (x & Hx & _); now inversion Hx.
  - rewrite Hreq in H. apply in_app_or in H as [H | H].
    + destruct (provisioning_requests env) as [E | E]; rewrite E in H;
        cbn [In] in H; intuition discriminate.
    + apply in_app_or in H as [H | H]; apply in_map_iff in H
        as (x & Hx & _); now inversion Hx.
  - rewrite Hreq in H. apply in_app_or in H as [H | H].
    + destruct (provisioning_requests env) as [E | E]; rewrite E in H;
        cbn [In] in H; intuition discriminate.
    + apply in_app_or in H as [H | H]; apply in_map_iff in H
        as (x & Hx & _); now inversion Hx.
Qed.

Lemma uploads_are_namespaced_witness :
  exists org,
    organisation_id Example.member = Some org
    /\ String.prefix (org ++ "/") "org1/1700000000001_4fzyo82mv.README"
       = true.
Proof.
  destruct (@uploads_are_namespaced Example.backend Example.member
              (Example.filled "" [Example.report; Example.readme]) 1
              "org1/1700000000001_4fzyo82mv.README" Example.readme
              eq_refl)
    as (org & Horg & _ & _ & Hprefix & _).
  exists org. split; assumption.
Defined.

(** X5.  When every upload succeeded and the database reports an error
    for the insert, the toast shows "Database error: <message>", the
    parent is not called (neither [onSuccess] nor [onOpenChange]), every
    entry stays in the form with the loading flag cleared, and the
    files uploaded for the attempt stay in storage: the insert is the
    last request of the run. *)
Theorem database_error_keeps_uploads env p st org d err :
  organisation_id p = Some org -> Js.truthy org = true ->
  uploadsSucceed env org 0 (Form.files st) ->
  Js.truthy (finalResponsiblePerson p st) = true ->
  nextReviewDateValue (Form.nextReviewDate st) = inr d ->
  Env.insert env (insertedRow env p st org d) = Resolves (Some err) ->
  let r := submit env p st in
  toastsOf (trace r)
  = [("Error", "Database error: " ++ Js.message err, Destructive)]
  /\ successCalls (trace r) = 0
  /\ openChanges (trace r) = []
  /\ sameEntries (store r) st
  /\ Form.loading (store r) = false
  /\ requests (trace r)
     = (requests (provisioning env)
          ++ map (fun pf => Upload bucketId (fst pf) (snd pf) "3600" false)
                 (combine (pathsFrom env org 0 (Form.files st))
                          (Form.files st))
          ++ [Insert "compliance_records" (insertedRow env p st org d)])%list.
Proof.
  intros Horg Htruthy Hup Hperson Hdate Hins r. subst r.
  rewrite (handleSubmit_run env p st Horg Htruthy), submitBody_run.
  rewrite (uploadStep_success env org st _ Hup).
  cbv zeta. cbn [outcome store trace fst snd].
  rewrite persistStep_run, Hperson, Hdate. cbv zeta.
  unfold insertedRow in Hins. rewrite Hins.
  cbn [outcome store trace].
  change (PreventDefault :: ?t) with ([PreventDefault] ++ t)%list.
  read_trace.
  destruct (provisioning_quiet env) as (_ & _ & -> & -> & ->).
  destruct (uploadStepTrace_quiet env org st) as (_ & -> & -> & -> & _).
  rewrite uploadStepTrace_requests.
  repeat split.
  rewrite requests_catch, app_nil_r. reflexivity.
Qed.

Lemma database_error_keeps_uploads_witness :
  toastsOf (trace (submit Sample.insertRefused Example.member
                          (Example.filled "" [Example.report])))
  = [("Error", "Database error: row-level security", Destructive)]
  /\ uploadsOf (trace (submit Sample.insertRefused Example.member
                              (Example.filled "" [Example.report])))
     = [("org1/1700000000000_4fzyo82mv.pdf", Example.report)].
Proof.
  destruct (@database_error_keeps_uploads Sample.insertRefused
              Example.member (Example.filled "" [Example.report]) "org1"
              (Some "2024-03-09") Sample.denied
              eq_refl eq_refl (conj eq_refl I) eq_refl eq_refl eq_refl)
    as (Htoast & _).
  split; [exact Htoast | reflexivity].
Defined.

(** X6.  When the promise of an upload rejects (instead of reporting an
    error) after the earlier uploads succeeded, the later files are not
    attempted and nothing is inserted, as for a reported error; but the
    toast shows the thrown value's own message when it is an [Error]
    and "Failed to add compliance record" otherwise, so it does not name
    the file. *)
Theorem rejected_upload_is_reported_without_file_name
    env p st org pre file post e :
  organisation_id p = Some org -> Js.truthy org = true ->
  Form.files st = (pre ++ file :: post)%list ->
  uploadsSucceed env org 0 pre ->
  Env.upload env (List.length pre)
             (filePath env org (List.length pre) file) file
  = Rejects e ->
  let r := submit env p st in
  let attempted := (pre ++ [file])%list in
  uploadsOf (trace r) = combine (pathsFrom env org 0 attempted) attempted
  /\ insertsOf (trace r) = []
  /\ successCalls (trace r) = 0
  /\ toastsOf (trace r)
     = [("Error",
         if Js.instanceofError e then Js.message e
         else "Failed to add compliance record",
         Destructive)].
Proof.
  intros Horg Htruthy Hfiles Hok Hrej r attempted. subst r attempted.
  rewrite (handleSubmit_run env p st Horg Htruthy), submitBody_run.
  rewrite (@uploadStep_rejection env st org pre file post e _
             Hfiles Hok Hrej).
  cbv zeta. cbn [outcome store trace].
  change (PreventDefault :: ?t) with ([PreventDefault] ++ t)%list.
  read_trace.
  destruct (provisioning_quiet env) as (-> & -> & -> & -> & _).
  destruct (uploadedTrace_quiet env org pre 0) as (-> & -> & -> & _).
  rewrite uploadedTrace_uploads, uploads_snoc.
  repeat split. cbn. now rewrite app_nil_r.
Qed.

Lemma rejected_upload_is_reported_without_file_name_witness :
  toastsOf (trace (submit Sample.secondUploadRejects Example.member
                          (Example.filled ""
                             [Example.report; Example.readme;
                              Example.photo])))
  = [("Error", "Failed to add compliance record", Destructive)].
Proof.
  destruct (@rejected_upload_is_reported_without_file_name
              Sample.secondUploadRejects Example.member
              (Example.filled ""
                 [Example.report; Example.readme; Example.photo])
              "org1" [Example.report] Example.readme [Example.photo]
              Sample.timeout
              eq_refl eq_refl eq_refl (conj eq_refl I) eq_refl)
    as (_ & _ & _ & Htoast).
  exact Htoast.
Defined.

(** X7.  The row of a successful submission carries the item, the
    clause and the status exactly as they stand in the form, under the
    caller's organisation, and its responsible person is never empty.
    When the submit button was enabled, item, clause and status are
    non-empty as well. *)
Theorem persisted_row_carries_entries env p st :
  succeeded (submit env p st) = true ->
  exists row org,
    insertsOf (trace (submit env p st)) = [row]
    /\ organisation_id p = Some org
    /\ ComplianceRecord.organisation_id row = org
    /\ ComplianceRecord.compliance_item row = Form.complianceItem st
    /\ ComplianceRecord.standard_clause row = Form.standardClause st
    /\ ComplianceRecord.compliance_status row = Form.complianceStatus st
    /\ ComplianceRecord.responsible_person row <> ""
    /\ (submitDisabled p st = false ->
        ComplianceRecord.compliance_item row <> ""
        /\ ComplianceRecord.standard_clause row <> ""
        /\ ComplianceRecord.compliance_status row <> "").
Proof.
  intros H.
  destruct (submit_succeeded_run env p st H)
    as (org & d & Horg & _ & Hperson & _ & ->).
  exists (insertedRow env p st org d), org. cbn [trace].
  split; [apply successTrace_inserts|].
  cbn [insertedRow composeRow ComplianceRecord.organisation_id
       ComplianceRecord.compliance_item ComplianceRecord.standard_clause
       ComplianceRecord.compliance_status
       ComplianceRecord.responsible_person].
  repeat (split; [reflexivity || assumption|]).
  split.
  { intros E. rewrite E in Hperson. discriminate. }
  unfold submitDisabled. intros Hb.
  apply orb_false_iff in Hb as [Hb _].
  apply orb_false_iff in Hb as [Hb Hstatus].
  apply orb_false_iff in Hb as [Hb Hclause].
  apply orb_false_iff in Hb as [_ Hitem].
  repeat split; intros E; rewrite E in *; discriminate.
Qed.

Lemma persisted_row_carries_entries_witness :
  exists row,
    insertsOf (trace (submit Example.backend Example.member
                             (Example.filled "" [])))
    = [row]
    /\ ComplianceRecord.compliance_item row = "Fire drill"
    /\ ComplianceRecord.organisation_id row = "org1".
Proof.
  destruct (persisted_row_carries_entries Example.backend Example.member
              (Example.filled "" []) eq_refl)
    as (row & org & Hrow & Horg & Hrorg & Hitem & _).
  exists row. split; [exact Hrow|]. split; [exact Hitem|].
  cbv in Horg. injection Horg as <-. exact Hrorg.
Defined.

(** X8.  A submission succeeds exactly when the caller has an
    organisation, every upload resolves without an error, the resolved
    responsible person is not empty, the picked date (if any) is a
    valid Date, and the insert resolves without an error. *)
Theorem submission_succeeds_iff env p st :
  succeeded (submit env p st) = true
  <-> exists org d,
        organisation_id p = Some org /\ Js.truthy org = true
        /\ uploadsSucceed env org 0 (Form.files st)
        /\ Js.truthy (finalResponsiblePerson p st) = true
        /\ nextReviewDateValue (Form.nextReviewDate st) = inr d
        /\ Env.insert env (insertedRow env p st org d) = Resolves None.
Proof.
  split.
  - apply submit_succeeded_inv.
  - intros (org & d & Horg & Htruthy & Hup & Hperson & Hd & Hins).
    rewrite (submit_success env p st Horg Htruthy Hup Hperson Hd Hins).
    unfold succeeded. cbn [trace].
    now destruct (successTrace_calls env p st org d) as [-> _].
Qed.

(** X9.  A caller who is not an admin and has neither a full name nor
    an e-mail address cannot add a record: with an organisation and
    every upload succeeding, each attached file is uploaded and the
    submission is then rejected with "Responsible person is required",
    whatever the form holds.  The submit button does not guard this
    case: it is enabled as soon as item, clause and status are filled
    in. *)
Theorem nameless_member_rejected_after_uploads env p st org :
  organisation_id p = Some org -> Js.truthy org = true ->
  isAdmin p = false -> memberName p = "" ->
  uploadsSucceed env org 0 (Form.files st) ->
  let r := submit env p st in
  toastsOf (trace r)
  = [("Error", "Responsible person is required", Destructive)]
  /\ uploadsOf (trace r)
     = combine (pathsFrom env org 0 (Form.files st)) (Form.files st)
  /\ insertsOf (trace r) = []
  /\ submitDisabled p st
     = (Form.loading st
        || negb (Js.truthy (Form.complianceItem st))
        || negb (Js.truthy (Form.standardClause st))
        || negb (Js.truthy (Form.complianceStatus st))).
Proof.
  intros Horg Htruthy Hrole Hname Hup r. subst r.
  assert (Hperson : Js.truthy (finalResponsiblePerson p st) = false).
  { unfold finalResponsiblePerson. now rewrite Hrole, Hname. }
  rewrite (submit_person_missing env p st Horg Htruthy Hperson).
  cbv zeta. rewrite (uploadStep_success env org st _ Hup).
  cbn [outcome trace]. read_trace.
  destruct (provisioning_quiet env) as (-> & -> & -> & _).
  destruct (uploadStepTrace_quiet env org st) as (-> & -> & _).
  rewrite uploadStepTrace_uploads.
  repeat split.
  - cbn. now rewrite app_nil_r.
  - unfold submitDisabled. rewrite Hrole. cbn [andb].
    now rewrite orb_false_r.
Qed.

Lemma nameless_member_rejected_after_uploads_witness :
  toastsOf (trace (submit Example.backend Sample.nameless
                          (Example.filled "Bob Ray" [Example.report])))
  = [("Error", "Responsible person is required", Destructive)]
  /\ uploadsOf (trace (submit Example.backend Sample.nameless
                              (Example.filled "Bob Ray" [Example.report])))
     = [("org1/1700000000000_4fzyo82mv.pdf", Example.report)]
  /\ submitDisabled Sample.nameless
                    (Example.filled "Bob Ray" [Example.report])
     = false.
Proof.
  destruct (@nameless_member_rejected_after_uploads Example.backend
              Sample.nameless (Example.filled "Bob Ray" [Example.report])
              "org1" eq_refl eq_refl eq_refl eq_refl (conj eq_refl I))
    as (Htoast & Hup & _ & Hbutton).
  split; [exact Htoast|]. split; [exact Hup|].
  rewrite Hbutton. reflexivity.
Defined.

(** The two ways in which [fetchStandards] completes. *)
Lemma fetchStandards_run env p s org :
  organisation_id p = Some org -> Js.truthy org = true ->
  fetchStandards env p s
  = let failed err :=
      mkRun (Normal tt)
            (Form.setStandardsLoading false
               (Form.setStandardsLoading true s))
            [ Remote (standardsQuery org);
              ConsoleError "Error fetching standards:" err;
              Toast "Error" "Failed to fetch standards" Destructive ] in
    match Env.selectStandards env org with
    | Resolves (data, None) =>
        mkRun (Normal tt)
              (Form.setStandardsLoading false
                 (Form.setStandards
                    (match data with Some d => d | None => [] end)
                    (Form.setStandardsLoading true s)))
              [Remote (standardsQuery org)]
    | Resolves (_, Some err) => failed err
    | Rejects err => failed err
    end.
Proof.
  intros Horg Htruthy. unfold fetchStandards. rewrite Horg, Htruthy.
  run_monad. cbv zeta.
  destruct (Env.selectStandards env org) as [[data [err|]]|e];
    reflexivity.
Qed.

(** X10.  When the standards query answers without an error, the
    selector lists exactly the fetched standards, in the order in which
    the backend returned them, each as "<clause> - <description>" with
    the clause as its value; when the answer is empty or null it shows
    the single disabled item "No standards available".  One request is
    sent, no toast is shown, the loading flag is cleared and the
    entries of the form are untouched. *)
Theorem standards_listed_as_fetched env p s org data :
  organisation_id p = Some org -> Js.truthy org = true ->
  Env.selectStandards env org = Resolves (data, None) ->
  let r := fetchStandards env p s in
  outcome r = Normal tt
  /\ requests (trace r) = [standardsQuery org]
  /\ toastsOf (trace r) = []
  /\ Form.standardsLoading (store r) = false
  /\ sameEntries (store r) s
  /\ standardItems (store r)
     = match data with
       | Some (first :: others) =>
           map (fun standard =>
                  Item (Standard.standard_clause standard)
                       (Standard.standard_clause standard ++ " - "
                          ++ Standard.standard_description standard)
                       false)
               (first :: others)
       | _ => [Item "" "No standards available" true]
       end.
Proof.
  intros Horg Htruthy Hreply r. subst r.
  rewrite (fetchStandards_run env p s Horg Htruthy), Hreply.
  cbn [outcome store trace]. repeat split.
  unfold standardItems.
  cbn [Form.standards Form.standardsLoading Form.setStandardsLoading
       Form.setStandards].
  destruct data as [[|first others]|]; cbn [List.length Nat.eqb andb negb];
    [reflexivity | | reflexivity].
  now rewrite app_nil_r.
Qed.

Lemma standards_listed_as_fetched_witness :
  standardItems (store (fetchStandards Sample.oneStandard Example.member
                                       Form.initial))
  = [Item "4.2" "4.2 - Context" false].
Proof.
  destruct (@standards_listed_as_fetched Sample.oneStandard Example.member
              Form.initial "org1" (Some [Sample.clause42])
              eq_refl eq_refl eq_refl)
    as (_ & _ & _ & _ & _ & Hitems).
  exact Hitems.
Defined.

(** X11.  When the standards query reports an error or its promise
    rejects, [fetchStandards] does not throw: it shows the toast
    "Failed to fetch standards", leaves the list of standards as it was
    (data that came with the error is ignored), clears the loading flag
    and keeps the entries.  On a dialog that had no standards yet the
    selector then shows "No standards available" under the placeholder
    "Select standard clause", and the form stays usable. *)
Theorem failed_fetch_keeps_the_form_usable env p s org err :
  organisation_id p = Some org -> Js.truthy org = true ->
  (Env.selectStandards env org = Rejects err
   \/ exists data, Env.selectStandards env org = Resolves (data, Some err)) ->
  let r := fetchStandards env p s in
  outcome r = Normal tt
  /\ toastsOf (trace r) = [("Error", "Failed to fetch standards", Destructive)]
  /\ requests (trace r) = [standardsQuery org]
  /\ Form.standards (store r) = Form.standards s
  /\ Form.standardsLoading (store r) = false
  /\ sameEntries (store r) s
  /\ standardPlaceholder (store r) = "Select standard clause"
  /\ (Form.standards s = [] ->
      standardItems (store r) = [Item "" "No standards available" true]).
Proof.
  intros Horg Htruthy Hreply r. subst r.
  rewrite (fetchStandards_run env p s Horg Htruthy). cbv zeta.
  destruct Hreply as [-> | [data ->]]; cbn [outcome store trace];
    repeat split;
    intros Hnone; unfold standardItems;
    cbn [Form.standards Form.standardsLoading Form.setStandardsLoading];
    rewrite Hnone; reflexivity.
Qed.

Lemma failed_fetch_keeps_the_form_usable_witness :
  toastsOf (trace (fetchStandards Sample.insertRefused Example.member
                                  Form.initial))
  = [("Error", "Failed to fetch standards", Destructive)]
  /\ standardItems (store (fetchStandards Sample.insertRefused
                                          Example.member Form.initial))
     = [Item "" "No standards available" true].
Proof.
  destruct (@failed_fetch_keeps_the_form_usable Sample.insertRefused
              Example.member Form.initial "org1" Sample.denied
              eq_refl eq_refl (or_intror (ex_intro _ None eq_refl)))
    as (_ & Htoast & _ & _ & _ & _ & _ & Hitems).
  split; [exact Htoast | exact (Hitems eq_refl)].
Defined.

(** X12.  The effect that loads the standards does nothing while the
    dialog is closed.  When the dialog is open and the caller has an
    organisation it sends exactly one request, whatever the answer:
    all columns of "standards", filtered by the caller's
    [organisation_id] and ordered by [standard_clause] ascending; and it
    never throws. *)
Theorem standards_requested_once_per_opening env p s :
  (open p = false -> openEffect env p s = mkRun (Normal tt) s [])
  /\ (forall org,
        open p = true ->
        organisation_id p = Some org -> Js.truthy org = true ->
        outcome (openEffect env p s) = Normal tt
        /\ requests (trace (openEffect env p s))
           = [SelectAll "standards" "organisation_id" org
                        "standard_clause" true]).
Proof.
  split.
  - intros Hopen. unfold openEffect. now rewrite Hopen.
  - intros org Hopen Horg Htruthy. unfold openEffect.
    rewrite Hopen, Horg. cbn [Js.truthy_opt andb]. rewrite Htruthy.
    rewrite (fetchStandards_run env p s Horg Htruthy). cbv zeta.
    destruct (Env.selectStandards env org) as [[data [err|]]|e];
      split; reflexivity.
Qed.

Lemma standards_requested_once_per_opening_witness :
  requests (trace (openEffect Sample.insertRefused Example.member
                              Form.initial))
  = [SelectAll "standards" "organisation_id" "org1" "standard_clause" true].
Proof.
  destruct (standards_requested_once_per_opening Sample.insertRefused
              Example.member Form.initial) as (_ & Hopen).
  exact (proj2 (Hopen "org1" eq_refl eq_refl eq_refl)).
Defined.

(** X13.  An admin is offered one item per team member, in roster
    order, valued by the member's full name or, without one, by the
    e-mail address; the selector shows the responsible-person cell.
    When the admin picks a member's item and the submission succeeds,
    the inserted row names exactly that value. *)
Theorem admin_choice_is_persisted env p st member :
  isAdmin p = true ->
  succeeded (submit env p (Form.setResponsiblePerson
                             (fst (rosterItem member)) st)) = true ->
  responsibleField p st
  = RosterSelect (Form.responsiblePerson st)
                 (map rosterItem (teamMembers p))
  /\ map fst (map rosterItem (teamMembers p))
     = map (fun m => Js.or_str (TeamMember.full_name m)
                               (TeamMember.email m))
           (teamMembers p)
  /\ exists row,
       insertsOf (trace (submit env p (Form.setResponsiblePerson
                                         (fst (rosterItem member)) st)))
       = [row]
       /\ ComplianceRecord.responsible_person row
          = Js.or_str (TeamMember.full_name member)
                      (TeamMember.email member).
Proof.
  intros Hadmin H.
  split; [unfold responsibleField; now rewrite Hadmin|].
  split; [now rewrite map_map|].
  destruct (submit_succeeded_run env p _ H)
    as (org & d & _ & _ & _ & _ & ->).
  eexists. cbn [trace]. split; [apply successTrace_inserts|].
  cbn [insertedRow composeRow ComplianceRecord.responsible_person].
  unfold finalResponsiblePerson. rewrite Hadmin. reflexivity.
Qed.

Lemma admin_choice_is_persisted_witness :
  exists row,
    insertsOf (trace (submit Example.backend Example.admin
                             (Form.setResponsiblePerson
                                (fst (rosterItem Sample.bob))
                                (Example.filled "" []))))
    = [row]
    /\ ComplianceRecord.responsible_person row = "Bob Ray".
Proof.
  destruct (@admin_choice_is_persisted Example.backend Example.admin
              (Example.filled "" []) Sample.bob eq_refl eq_refl)
    as (_ & _ & row & Hrow & Hperson).
  exists row. split; [exact Hrow | exact Hperson].
Defined.

(** ** Splitting and joining *)

Section Segments.

Variable sep : ascii.

Lemma split_nonempty s : Js.split sep s <> [].
Proof.
  destruct s as [|c s]; cbn; [discriminate|].
  destruct (Ascii.eqb c sep); [discriminate|].
  destruct (Js.split sep s); discriminate.
Qed.

Lemma split_sepFree s : sepFree sep s = true -> Js.split sep s = [s].
Proof.
  unfold sepFree. induction s as [|c s IH]; cbn; [reflexivity|].
  intros H. apply andb_true_iff in H as [Hc Hs].
  apply negb_true_iff in Hc. now rewrite Hc, (IH Hs).
Qed.

Lemma split_append a b :
  Js.split sep (a ++ String sep b)
  = (Js.split sep a ++ Js.split sep b)%list.
Proof.
  induction a as [|c a IH]; cbn [append Js.split].
  - now rewrite Ascii.eqb_refl.
  - destruct (Ascii.eqb c sep); rewrite IH; [reflexivity|].
    pose proof (split_nonempty a) as Hne.
    destruct (Js.split sep a) as [|seg segs]; [contradiction|reflexivity].
Qed.

Lemma split_segments_sepFree s :
  Forall (fun seg => sepFree sep seg = true) (Js.split sep s).
Proof.
  unfold sepFree. induction s as [|c s IH]; cbn [Js.split].
  - repeat constructor.
  - destruct (Ascii.eqb c sep) eqn:E; [now constructor|].
    destruct (Js.split sep s) as [|seg segs]; [repeat constructor; cbn;
      now rewrite E|].
    inversion IH as [|? ? Hseg Hsegs]; subst.
    constructor; [cbn; now rewrite E, Hseg | exact Hsegs].
Qed.

Lemma pop_last (l : list string) d : l <> [] -> Js.pop l = Some (last l d).
Proof.
  destruct l as [|x l] using rev_ind; [contradiction|].
  intros _. unfold Js.pop. now rewrite rev_app_distr, last_last.
Qed.

Lemma last_in (l : list string) d : l <> [] -> In (last l d) l.
Proof.
  destruct l as [|x l] using rev_ind; [contradiction|].
  intros _. rewrite last_last. apply in_or_app. right. now left.
Qed.

Lemma last_app_nonempty (l1 l2 : list string) d :
  l2 <> [] -> last (l1 ++ l2) d = last l2 d.
Proof.
  intros Hne. destruct l2 as [|x l2] using rev_ind; [contradiction|].
  now rewrite app_assoc, !last_last.
Qed.

(** Joining segments and splitting again gives the segments back. *)
Lemma split_join segs :
  segs <> [] -> Forall (fun seg => sepFree sep seg = true) segs ->
  Js.split sep (Js.join (String sep "") segs) = segs.
Proof.
  induction segs as [|x rest IH]; [contradiction|].
  intros _ Hall. inversion Hall as [|? ? Hx Hrest]; subst.
  destruct rest as [|y rest].
  - cbn [Js.join]. now apply split_sepFree.
  - change (Js.join (String sep "") (x :: y :: rest))
      with (x ++ String sep (Js.join (String sep "") (y :: rest))).
    rewrite split_append, (split_sepFree x Hx), IH; auto. discriminate.
Qed.

End Segments.

Lemma substring_length_le s : forall n,
  String.length (substring 0 n s) <= n.
Proof.
  induction s as [|c s IH]; intros [|n]; cbn; auto with arith.
Qed.

(** ** Properties of the storage keys *)

(** X14.  The extension that [handleSubmit] and [handleAvatarUpload]
    put into a storage key is the text after the last dot of the file
    name and never contains a dot.  A file name without any dot has no
    extension to take: its whole name becomes the extension. *)
Theorem fileExt_is_last_segment file :
  sepFree "." (fileExt file) = true
  /\ (forall stem ext,
        File.name file = stem ++ "." ++ ext -> sepFree "." ext = true ->
        fileExt file = ext)
  /\ (sepFree "." (File.name file) = true ->
      fileExt file = File.name file).
Proof.
  unfold fileExt.
  rewrite (pop_last "" (split_nonempty "." (File.name file))).
  split; [|split].
  - pose proof (split_segments_sepFree "." (File.name file)) as Hall.
    rewrite Forall_forall in Hall. apply Hall.
    apply last_in, split_nonempty.
  - intros stem ext -> Hext.
    change (stem ++ "." ++ ext) with (stem ++ String "." ext).
    rewrite split_append, last_app_nonempty by apply split_nonempty.
    now rewrite (split_sepFree "." ext Hext).
  - intros Hname. now rewrite (split_sepFree "." _ Hname).
Qed.

Lemma fileExt_is_last_segment_witness :
  fileExt Example.report = "pdf" /\ fileExt Example.readme = "README".
Proof.
  destruct (fileExt_is_last_segment Example.report) as (_ & Hext & _).
  destruct (fileExt_is_last_segment Example.readme) as (_ & _ & Hname).
  split.
  - exact (Hext "report.final" "pdf" eq_refl eq_refl).
  - exact (Hname eq_refl).
Defined.

(** ** Properties of ProfileSettings *)

Lemma append_empty_r (s : string) : s ++ "" = s.
Proof. induction s as [|c s IH]; cbn; [reflexivity | now rewrite IH]. Qed.

(** Joining with the empty separator concatenates. *)
Lemma join_concatenates l : Js.join "" l = fold_right append "" l.
Proof.
  induction l as [|x l IH]; [reflexivity|].
  cbn [fold_right]. rewrite <- IH.
  destruct l as [|y l]; [cbn; now rewrite append_empty_r | reflexivity].
Qed.

(** The first letters of the non-empty segments. *)
Lemma first_letters_skip_empty segs :
  fold_right append ""
    (map (fun n => Text.printed (Text.first n)) segs)
  = fold_right append ""
      (map (fun n => Text.printed (Text.first n)) (filter Js.truthy segs)).
Proof.
  induction segs as [|[|c w] segs IH]; cbn [map filter fold_right Js.truthy];
    [reflexivity | exact IH | now rewrite IH].
Qed.

Lemma initials_of_segments segs :
  segs <> [] -> Forall (fun w => sepFree " " w = true) segs ->
  getInitials (Js.join " " segs)
  = Text.slice 0 2
      (Text.toUpperCase
         (fold_right append ""
            (map (fun n => Text.printed (Text.first n))
                 (filter Js.truthy segs)))).
Proof.
  intros Hne Hall. unfold getInitials.
  now rewrite (split_join " " Hne Hall), join_concatenates,
    first_letters_skip_empty.
Qed.

Lemma toUpperCase_append a b :
  Text.toUpperCase (a ++ b) = Text.toUpperCase a ++ Text.toUpperCase b.
Proof. induction a as [|c a IH]; cbn; [reflexivity | now rewrite IH]. Qed.

(** X15.  For a name written as words separated by spaces,
    [getInitials] gives the upper-cased first letters of the first two
    words, or of the only word; leading, trailing and repeated spaces
    make no difference, and a name without any word gives the empty
    string. *)
Theorem initials_are_first_letters segs :
  segs <> [] -> Forall (fun w => sepFree " " w = true) segs ->
  let name := Js.join " " segs in
  let words := filter Js.truthy segs in
  (words = [] -> getInitials name = "")
  /\ (forall a u, words = [String a u] ->
      getInitials name = String (Text.upper a) "")
  /\ (forall a u b v others,
        words = String a u :: String b v :: others ->
        getInitials name = String (Text.upper a) (String (Text.upper b) "")).
Proof.
  intros Hne Hall name words. subst name words.
  rewrite (initials_of_segments Hne Hall).
  split; [|split].
  - intros ->. reflexivity.
  - intros a u ->. reflexivity.
  - intros a u b v others ->.
    cbn [map fold_right Text.first Text.printed append Text.toUpperCase].
    unfold Text.slice. cbn [Nat.sub substring].
    now destruct (Text.toUpperCase _).
Qed.

Lemma initials_are_first_letters_witness :
  getInitials " ann  lee ray" = "AL".
Proof.
  destruct (@initials_are_first_letters [""; "ann"; ""; "lee"; "ray"])
    as (_ & _ & Htwo).
  - discriminate.
  - repeat constructor.
  - exact (Htwo "a"%char "nn" "l"%char "ee" ["ray"] eq_refl).
Defined.

Lemma upper_idempotent c : Text.upper (Text.upper c) = Text.upper c.
Proof.
  destruct c as [[|] [|] [|] [|] [|] [|] [|] [|]]; reflexivity.
Qed.

Lemma allChars_substring P s : forall n m,
  allChars P s = true -> allChars P (substring n m s) = true.
Proof.
  induction s as [|c s IH]; intros [|n] [|m] H; cbn in *; auto;
    apply andb_true_iff in H as [Hc Hs]; auto.
  now rewrite Hc, IH.
Qed.

Lemma toUpperCase_fixed s :
  allChars (fun c => Ascii.eqb (Text.upper c) c) (Text.toUpperCase s) = true.
Proof.
  induction s as [|c s IH]; cbn; [reflexivity|].
  now rewrite upper_idempotent, Ascii.eqb_refl, IH.
Qed.

(** X16.  Whatever the name, [getInitials] gives at most two
    characters, none of which is a lower-case letter. *)
Theorem initials_are_short_and_upper_case name :
  String.length (getInitials name) <= 2
  /\ allChars (fun c => Ascii.eqb (Text.upper c) c) (getInitials name)
     = true.
Proof.
  unfold getInitials, Text.slice. split.
  - apply substring_length_le.
  - apply allChars_substring, toUpperCase_fixed.
Qed.

(** X17.  The badge of a role always starts with the common classes.
    It is the purple one exactly for "admin" and the blue one exactly
    for "member"; every other role gets the gray one.  A caller without
    a role is shown as "member", with the blue badge. *)
Theorem role_badge_by_role :
  (forall role, String.prefix baseClasses (getRoleBadge role) = true)
  /\ (forall role,
        getRoleBadge role = baseClasses ++ " bg-purple-100 text-purple-800"
        <-> role = "admin")
  /\ (forall role,
        getRoleBadge role = baseClasses ++ " bg-blue-100 text-blue-800"
        <-> role = "member")
  /\ (forall role,
        role <> "admin" -> role <> "member" ->
        getRoleBadge role = baseClasses ++ " bg-gray-100 text-gray-800")
  /\ (forall om,
        Js.truthy_opt (match om with
                       | Some m => Member.role m
                       | None => None
                       end) = false ->
        shownRole om = "member"
        /\ roleBadge om = baseClasses ++ " bg-blue-100 text-blue-800").
Proof.
  split; [|split; [|split; [|split]]].
  - intros role. unfold getRoleBadge.
    destruct (String.eqb role "admin"); [|destruct (String.eqb role "member")];
      apply prefix_append.
  - intros role. unfold getRoleBadge.
    destruct (String.eqb_spec role "admin") as [->|Hne];
      [tauto|].
    destruct (String.eqb role "member");
      (split; [intros H; vm_compute in H; discriminate H | contradiction]).
  - intros role. unfold getRoleBadge.
    destruct (String.eqb_spec role "admin") as [->|Hne].
    { split; intros H; [vm_compute in H|]; discriminate H. }
    destruct (String.eqb_spec role "member") as [->|Hne'];
      [tauto|].
    split; [intros H; vm_compute in H; discriminate H | contradiction].
  - intros role Ha Hm. unfold getRoleBadge.
    destruct (String.eqb_spec role "admin"); [contradiction|].
    destruct (String.eqb_spec role "member"); [contradiction|reflexivity].
  - intros om H. unfold roleBadge, shownRole, Js.or_str.
    destruct (match om with Some m => Member.role m | None => None end)
      as [role|]; cbn [Js.truthy_opt] in H; [rewrite H|];
      split; reflexivity.
Qed.

Lemma role_badge_by_role_witness :
  getRoleBadge "owner" = baseClasses ++ " bg-gray-100 text-gray-800".
Proof.
  destruct role_badge_by_role as (_ & _ & _ & Hother & _).
  apply Hother; discriminate.
Defined.

Ltac run_async :=
  cbv [Async.bind Async.tryCatch Async.tryFinally Async.await Async.emit
       Async.throw Async.ret Async.setState avatarLog avatarError
       avatarCaught messageOf].

(** The ways in which [handleAvatarUpload] completes. *)
Lemma handleAvatarUpload_run env user files st :
  uploadAvatar env user files st
  = let s1 := Profile.setUploading true st in
    let fail e pre s :=
      Async.mkRun (Async.Normal tt) (Profile.setUploading false s)
        (pre ++ [ Shared (ConsoleError "Error uploading avatar:" e);
                  Shared
                    (Toast "Error"
                       (if Js.truthy (Js.message e) then Js.message e
                        else "Failed to upload avatar. Please try again.")
                       Destructive) ])%list in
    let rejected v pre s :=
      match v with
      | Object e => fail e pre s
      | Nullish =>
          Async.mkRun (Async.Throw (Object (nullishRead "message")))
            (Profile.setUploading false s)
            (pre ++ [ConsoleErrorNullish "Error uploading avatar:"])%list
      end in
    match files with
    | None | Some [] =>
        fail (Js.newError "You must select an image to upload.") [] s1
    | Some (file :: _) =>
        match user with
        | None => fail (Js.newError "User not authenticated") [] s1
        | Some u =>
            let key := avatarFileName env u file in
            let ask :=
              [ Shared (ConsoleLog "Uploading file:");
                Shared (Remote (Upload "avatars" key file "3600" true)) ] in
            match AvatarEnv.upload env key file with
            | Async.Rejects v => rejected v ask s1
            | Async.Resolves (Some err) =>
                fail err
                     (ask ++ [Shared (ConsoleError "Upload error:" err)])%list
                     s1
            | Async.Resolves None =>
                let url := AvatarEnv.publicUrl env key in
                let s2 := Profile.setAvatarUrl (Some url) s1 in
                let more :=
                  (ask ++ [ Shared (ConsoleLog "Upload successful:");
                            Shared (ConsoleLog "Public URL:");
                            UpdateUser url ])%list in
                match AvatarEnv.updateUser env url with
                | Async.Rejects v => rejected v more s2
                | Async.Resolves (Some err) =>
                    fail err
                         (more ++ [Shared (ConsoleError "Update user error:"
                                                        err)])%list
                         s2
                | Async.Resolves None =>
                    Async.mkRun (Async.Normal tt)
                      (Profile.setUploading false s2)
                      (more ++ [Shared (Toast "Success"
                                              "Avatar updated successfully!"
                                              Default)])%list
                end
            end
        end
    end.
Proof.
  unfold uploadAvatar, handleAvatarUpload. run_async. cbv zeta.
  destruct files as [[|file rest]|]; [reflexivity | | reflexivity].
  destruct user as [u|]; [|reflexivity].
  destruct (AvatarEnv.upload env (avatarFileName env u file) file)
    as [[err|]|[|e]]; [reflexivity | | reflexivity | reflexivity].
  destruct (AvatarEnv.updateUser env _) as [[err|]|[|e]]; reflexivity.
Qed.

(** X18.  Without a selected file the avatar upload is refused with
    "You must select an image to upload."; with a file but without an
    authenticated user it is refused with "User not authenticated" (the
    file is checked first).  In both cases nothing is sent, the shown
    avatar is unchanged and the uploading flag is cleared. *)
Theorem avatar_needs_file_and_user env user files st :
  files = None \/ files = Some [] \/ user = None ->
  let r := uploadAvatar env user files st in
  profileToasts (Async.trace r)
  = [("Error",
      match files with
      | Some (_ :: _) => "User not authenticated"
      | _ => "You must select an image to upload."
      end,
      Destructive)]
  /\ avatarUploads (Async.trace r) = []
  /\ userUpdates (Async.trace r) = []
  /\ Profile.avatarUrl (Async.store r) = Profile.avatarUrl st
  /\ Profile.uploading (Async.store r) = false.
Proof.
  intros H r. subst r. rewrite handleAvatarUpload_run. cbv zeta.
  destruct files as [[|file rest]|]; try (repeat split; fail).
  destruct H as [H | [H | ->]]; try discriminate H.
  repeat split.
Qed.

Lemma avatar_needs_file_and_user_witness :
  profileToasts (Async.trace (uploadAvatar Sample.avatars None
                                          (Some [Sample.portrait])
                                          Profile.initial))
  = [("Error", "User not authenticated", Destructive)].
Proof.
  destruct (@avatar_needs_file_and_user Sample.avatars None
              (Some [Sample.portrait]) Profile.initial
              (or_intror (or_intror eq_refl)))
    as (Htoast & _).
  exact Htoast.
Defined.

(** X19.  When the storage service reports an error for the avatar
    upload, the toast shows that error's message (or "Failed to upload
    avatar. Please try again." when it has none), the shown avatar is
    unchanged and the user's metadata is not updated.  Only the first
    selected file is used; it is sent once, to the bucket "avatars",
    under the key "<user id>-<random>.<extension>", with overwriting
    allowed. *)
Theorem avatar_upload_error_changes_nothing
    env u file others st err :
  AvatarEnv.upload env (avatarFileName env u file) file
  = Async.Resolves (Some err) ->
  let r := uploadAvatar env (Some u) (Some (file :: others)) st in
  profileToasts (Async.trace r)
  = [("Error",
      if Js.truthy (Js.message err) then Js.message err
      else "Failed to upload avatar. Please try again.",
      Destructive)]
  /\ avatarUploads (Async.trace r)
     = [("avatars",
         User.id u ++ "-" ++ AvatarEnv.random env ++ "." ++ fileExt file,
         file, true)]
  /\ userUpdates (Async.trace r) = []
  /\ Profile.avatarUrl (Async.store r) = Profile.avatarUrl st
  /\ Profile.uploading (Async.store r) = false.
Proof.
  intros H r. subst r. rewrite handleAvatarUpload_run. cbv zeta.
  rewrite H. repeat split.
Qed.

Lemma avatar_upload_error_changes_nothing_witness :
  profileToasts (Async.trace (uploadAvatar Sample.uploadRefused
                                          (Some Sample.ann)
                                          (Some [Sample.portrait])
                                          Profile.initial))
  = [("Error", "row-level security", Destructive)].
Proof.
  destruct (@avatar_upload_error_changes_nothing Sample.uploadRefused
              Sample.ann Sample.portrait [] Profile.initial Sample.denied
              eq_refl)
    as (Htoast & _).
  exact Htoast.
Defined.

(** X20.  When the upload succeeds but the update of the user's
    metadata reports an error, the error toast is shown although the
    state already holds the new public URL: the page shows the new
    avatar (when the URL is not empty), the uploaded object stays in
    storage, and the stored metadata still name the old one. *)
Theorem avatar_update_error_keeps_new_url
    env u file others st err :
  AvatarEnv.upload env (avatarFileName env u file) file
  = Async.Resolves None ->
  AvatarEnv.updateUser env
    (AvatarEnv.publicUrl env (avatarFileName env u file))
  = Async.Resolves (Some err) ->
  let r := uploadAvatar env (Some u) (Some (file :: others)) st in
  let url := AvatarEnv.publicUrl env (avatarFileName env u file) in
  profileToasts (Async.trace r)
  = [("Error",
      if Js.truthy (Js.message err) then Js.message err
      else "Failed to upload avatar. Please try again.",
      Destructive)]
  /\ avatarUploads (Async.trace r)
     = [("avatars", avatarFileName env u file, file, true)]
  /\ userUpdates (Async.trace r) = [url]
  /\ Profile.avatarUrl (Async.store r) = Some url
  /\ (Js.truthy url = true ->
      avatarSrc (Async.store r) (Some u) = Some url)
  /\ Profile.uploading (Async.store r) = false.
Proof.
  intros Hup Hupd r url. subst r url.
  rewrite handleAvatarUpload_run. cbv zeta. rewrite Hup, Hupd.
  repeat split.
  intros Hurl. unfold avatarSrc, Js.or_opt.
  cbn [Async.store Profile.avatarUrl Profile.setUploading
       Profile.setAvatarUrl Js.truthy_opt].
  now rewrite Hurl.
Qed.

Lemma avatar_update_error_keeps_new_url_witness :
  avatarSrc (Async.store (uploadAvatar Sample.updateRefused
                                      (Some Sample.ann)
                                      (Some [Sample.portrait])
                                      Profile.initial))
            (Some Sample.ann)
  = Some "https://cdn.example.org/u1-0.123.png".
Proof.
  destruct (@avatar_update_error_keeps_new_url Sample.updateRefused
              Sample.ann Sample.portrait [] Profile.initial Sample.denied
              eq_refl eq_refl)
    as (_ & _ & _ & _ & Hsrc & _).
  exact (Hsrc eq_refl).
Defined.

(** X21.  When the upload and the update of the metadata both succeed,
    the toast "Avatar updated successfully!" is shown, the metadata are
    updated with the public URL of the uploaded key, and the state
    holds that same URL. *)
Theorem avatar_success_records_public_url env u file others st :
  AvatarEnv.upload env (avatarFileName env u file) file
  = Async.Resolves None ->
  AvatarEnv.updateUser env
    (AvatarEnv.publicUrl env (avatarFileName env u file))
  = Async.Resolves None ->
  let r := uploadAvatar env (Some u) (Some (file :: others)) st in
  let url := AvatarEnv.publicUrl env (avatarFileName env u file) in
  profileToasts (Async.trace r)
  = [("Success", "Avatar updated successfully!", Default)]
  /\ avatarUploads (Async.trace r)
     = [("avatars", avatarFileName env u file, file, true)]
  /\ userUpdates (Async.trace r) = [url]
  /\ Profile.avatarUrl (Async.store r) = Some url
  /\ Profile.uploading (Async.store r) = false.
Proof.
  intros Hup Hupd r url. subst r url.
  rewrite handleAvatarUpload_run. cbv zeta. rewrite Hup, Hupd.
  repeat split.
Qed.

Lemma avatar_success_records_public_url_witness :
  userUpdates (Async.trace (uploadAvatar Sample.avatars (Some Sample.ann)
                                        (Some [Sample.portrait])
                                        Profile.initial))
  = ["https://cdn.example.org/u1-0.123.png"].
Proof.
  destruct (@avatar_success_records_public_url Sample.avatars Sample.ann
              Sample.portrait [] Profile.initial eq_refl eq_refl)
    as (_ & _ & Hupd & _).
  exact Hupd.
Defined.

(** X22.  [handleAvatarUpload] always ends with the uploading flag
    cleared and the edit-dialog flag untouched, sends at most one upload
    and at most one metadata update, and updates the metadata only
    after an upload.  It completes normally and shows exactly one
    toast, except when the promise of the upload or of the metadata
    update rejects with [undefined] or [null]: reading [error.message]
    in the [catch] clause then throws a TypeError, which the handler
    lets through after clearing the flag, and no toast is shown. *)
Theorem avatar_upload_always_settles env user files st :
  let r := uploadAvatar env user files st in
  Profile.uploading (Async.store r) = false
  /\ Profile.isEditDialogOpen (Async.store r) = Profile.isEditDialogOpen st
  /\ List.length (avatarUploads (Async.trace r)) <= 1
  /\ List.length (userUpdates (Async.trace r))
     <= List.length (avatarUploads (Async.trace r))
  /\ Async.outcome r
     = (if nullishRejection env user files
        then Async.Throw (Object (nullishRead "message"))
        else Async.Normal tt)
  /\ List.length (profileToasts (Async.trace r))
     = (if nullishRejection env user files then 0 else 1).
Proof.
  cbv zeta. rewrite handleAvatarUpload_run. unfold nullishRejection.
  cbv zeta.
  destruct files as [[|file rest]|];
    [ | destruct user as [u|];
        [ destruct (AvatarEnv.upload env (avatarFileName env u file) file)
            as [[err|]|[|e]];
          [ | destruct (AvatarEnv.updateUser env
                          (AvatarEnv.publicUrl env
                             (avatarFileName env u file)))
                as [[err|]|[|e]] | | ] | ] | ];
    repeat split;
    cbv [Async.trace avatarUploads userUpdates flat_map app List.length];
    lia.
Qed.

Lemma avatar_upload_always_settles_witness :
  Async.outcome (uploadAvatar Sample.uploadRejectsUndefined
                              (Some Sample.ann) (Some [Sample.portrait])
                              Profile.initial)
  = Async.Throw (Object (nullishRead "message"))
  /\ profileToasts (Async.trace (uploadAvatar Sample.uploadRejectsUndefined
                                             (Some Sample.ann)
                                             (Some [Sample.portrait])
                                             Profile.initial))
     = []
  /\ Profile.uploading (Async.store (uploadAvatar
                                       Sample.uploadRejectsUndefined
                                       (Some Sample.ann)
                                       (Some [Sample.portrait])
                                       Profile.initial))
     = false
  /\ Async.outcome (uploadAvatar Sample.uploadRefused (Some Sample.ann)
                                 (Some [Sample.portrait]) Profile.initial)
     = Async.Normal tt.
Proof.
  destruct (avatar_upload_always_settles Sample.uploadRejectsUndefined
              (Some Sample.ann) (Some [Sample.portrait]) Profile.initial)
    as (Hflag & _ & _ & _ & Hout & _).
  destruct (avatar_upload_always_settles Sample.uploadRefused
              (Some Sample.ann) (Some [Sample.portrait]) Profile.initial)
    as (_ & _ & _ & _ & Hout' & _).
  split; [exact Hout|]. split; [reflexivity|].
  split; [exact Hflag | exact Hout'].
Defined.
